(** * ArchiveBox: extractors, the playwright binary provider, the LDAP config set

    A shallow embedding of
      - archivebox/plugantic/base_extractor.py        (Module Extractor)
      - archivebox/plugins_pkg/playwright/binproviders.py (Module Playwright)
      - archivebox/plugins_auth/ldap/settings.py      (Module Ldap)
    over a small model of the Python values these files compute with
    (Module Py: text as sequences of code points, bytes, pure POSIX paths)
    and of the process state they act on (Module Proc: filesystem snapshot,
    class-level cache, printed output, trace of filesystem queries). *)

From Stdlib Require Import String Ascii NArith ZArith Lia Bool.
From stdpp Require Import base option list sorting gmap.

Local Open Scope N_scope.

(* ===================================================================== *)
(** ** Python values *)
(* ===================================================================== *)

Module Py.

(** A Python [str] is a sequence of Unicode code points. *)
Abbreviation str := (list N).

(** A string literal of the source, code point by code point. *)
Definition lit (s : string) : str :=
  map N_of_ascii (list_ascii_of_string s).

Definition NL : N := 10.        (* '\n' *)
Definition SLASH : N := 47.     (* '/'  *)

(** [a == b] on [str]. *)
Definition str_eqb (a b : str) : bool := bool_decide (a = b).

(** Truth value of a [str]: empty strings are false. *)
Definition str_truthy (s : str) : bool :=
  match s with [] => false | _ => true end.

(** Truth value of an optional value whose non-None inhabitants are all true
    (a [Path], a module object). *)
Definition some_truthy {A} (o : option A) : bool :=
  match o with Some _ => true | None => false end.

(** Truth value of an optional [str]: None and '' are false. *)
Definition opt_str_truthy (o : option str) : bool :=
  match o with Some s => str_truthy s | None => false end.

(** [str.isspace] on one code point: the interpreter's whitespace table
    (bidirectional class WS, B or S, or category Zs). *)
Definition isspace (c : N) : bool :=
  ((9 <=? c) && (c <=? 13)) || ((28 <=? c) && (c <=? 32))
  || (c =? 133) || (c =? 160) || (c =? 5760)
  || ((8192 <=? c) && (c <=? 8202))
  || (c =? 8232) || (c =? 8233) || (c =? 8239) || (c =? 8287) || (c =? 12288).

Fixpoint lstrip (s : str) : str :=
  match s with
  | [] => []
  | c :: s' => if isspace c then lstrip s' else s
  end.

Definition rstrip (s : str) : str := rev (lstrip (rev s)).

(** [s.strip()] *)
Definition strip (s : str) : str := lstrip (rstrip s).

(** [s.startswith(p)] *)
Fixpoint startswith (p s : str) : bool :=
  match p, s with
  | [], _ => true
  | _ :: _, [] => false
  | a :: p', b :: s' => (a =? b) && startswith p' s'
  end.

(** [sub in s] *)
Fixpoint contains (sub s : str) : bool :=
  startswith sub s ||
  match s with
  | [] => false
  | _ :: s' => contains sub s'
  end.

(** [s.split(sep)] for a non-empty [sep]: cut at the non-overlapping
    occurrences of [sep] found from left to right.  [skip] counts the code
    points of an occurrence still to be passed over. *)
Fixpoint split_from (sep : str) (skip : nat) (s : str) : list str :=
  match s with
  | [] => [[]]
  | c :: s' =>
      match skip with
      | S k => split_from sep k s'
      | O =>
          if startswith sep s
          then [] :: split_from sep (Nat.pred (length sep)) s'
          else match split_from sep O s' with
               | l :: ls => (c :: l) :: ls
               | [] => [[c]]
               end
      end
  end.

Definition split (sep s : str) : list str := split_from sep O s.

(** [xs[-1]] on a list known to be non-empty ([split] never returns []). *)
Definition last_item (xs : list str) : str := default [] (last xs).

(** [xs[0]] *)
Definition first_item (xs : list str) : str := List.hd [] xs.

(** [s.rsplit(c, 1)[-1]] for a one-character separator: what follows the
    last occurrence of [c], or all of [s] when there is none. *)
Fixpoint after_last (c : N) (s : str) : str :=
  match s with
  | [] => []
  | a :: s' =>
      if contains [c] s' then after_last c s'
      else if a =? c then s' else s
  end.

(** [sep.join(xs)] *)
Fixpoint join (sep : str) (xs : list str) : str :=
  match xs with
  | [] => []
  | [x] => x
  | x :: rest => x ++ sep ++ join sep rest
  end.

(** ASCII part of [str.lower]; code points outside A-Z are left alone.  Used
    for concrete hosts in the examples only: the interpreter's full mapping
    is a field of the host (see [Proc.Host]). *)
Definition ascii_lower (s : str) : str :=
  map (fun c => if (65 <=? c) && (c <=? 90) then c + 32 else c) s.

(** *** bytes and UTF-8 *)

Abbreviation bytes := (list N) (only parsing).   (* each element below 256 *)

Definition is_cont (b : N) : bool := (128 <=? b) && (b <=? 191).
Definition cont_bits (b : N) : N := b - 128.

(** [b.decode()]: strict UTF-8; [None] stands for UnicodeDecodeError.
    Overlong forms, surrogates and values above U+10FFFF are rejected. *)
Fixpoint decode_fuel (fuel : nat) (b : bytes) : option str :=
  match fuel with
  | O => match b with [] => Some [] | _ => None end
  | S fuel' =>
      match b with
      | [] => Some []
      | b0 :: r0 =>
          if b0 <? 128 then cons b0 <$> decode_fuel fuel' r0
          else if (194 <=? b0) && (b0 <=? 223) then
            match r0 with
            | b1 :: r1 =>
                if is_cont b1
                then cons ((b0 - 192) * 64 + cont_bits b1) <$> decode_fuel fuel' r1
                else None
            | _ => None
            end
          else if (224 <=? b0) && (b0 <=? 239) then
            match r0 with
            | b1 :: b2 :: r2 =>
                let lo := if b0 =? 224 then 160 else 128 in
                let hi := if b0 =? 237 then 159 else 191 in
                if (lo <=? b1) && (b1 <=? hi) && is_cont b2
                then cons ((b0 - 224) * 4096 + cont_bits b1 * 64 + cont_bits b2)
                       <$> decode_fuel fuel' r2
                else None
            | _ => None
            end
          else if (240 <=? b0) && (b0 <=? 244) then
            match r0 with
            | b1 :: b2 :: b3 :: r3 =>
                let lo := if b0 =? 240 then 144 else 128 in
                let hi := if b0 =? 244 then 143 else 191 in
                if (lo <=? b1) && (b1 <=? hi) && is_cont b2 && is_cont b3
                then cons ((b0 - 240) * 262144 + cont_bits b1 * 4096
                           + cont_bits b2 * 64 + cont_bits b3)
                       <$> decode_fuel fuel' r3
                else None
            | _ => None
            end
          else None
      end
  end.

Definition decode (b : bytes) : option str := decode_fuel (length b) b.

(** *** pathlib: pure POSIX paths *)

(** A path is its anchor ('' for a relative path, '/' or '//') and its
    components. *)
Record Path := mkPath { anchor : str; parts : list str }.

#[global] Instance Path_eq_dec : EqDecision Path.
Proof. solve_decision. Defined.

(** [Path(s)]: empty and '.' components are dropped; exactly two leading
    slashes are kept as the root '//'. *)
Definition parse_anchor (s : str) : str :=
  if startswith [SLASH; SLASH] s && negb (startswith [SLASH; SLASH; SLASH] s)
  then [SLASH; SLASH]
  else if startswith [SLASH] s then [SLASH] else [].

Definition parse_parts (s : str) : list str :=
  filter (fun p => p <> [] /\ p <> lit ".") (split [SLASH] s).

Definition PathOf (s : str) : Path :=
  {| anchor := parse_anchor s; parts := parse_parts s |}.

(** [str(p)] *)
Definition str_of (p : Path) : str :=
  match anchor p, parts p with
  | [], [] => lit "."
  | a, ps => a ++ join [SLASH] ps
  end.

(** [p.name] *)
Definition name (p : Path) : str := default [] (last (parts p)).

(** [p / q] for a path [q]: an anchored right operand replaces the left. *)
Definition joinpath (p q : Path) : Path :=
  match anchor q with
  | [] => {| anchor := anchor p; parts := parts p ++ parts q |}
  | _ => q
  end.

(** [p / s] for a [str] right operand. *)
Definition div (p : Path) (s : str) : Path := joinpath p (PathOf s).

(** The entry of [p] at the relative components [rel] (what [p.glob] yields
    for a match found at [rel] below [p]). *)
Definition below (p : Path) (rel : list str) : Path :=
  {| anchor := anchor p; parts := parts p ++ rel |}.

(** Ordering of paths ([sorted], [<]): the list of case-normalised parts,
    anchor first, compared as Python lists of [str]. *)
Definition cparts (p : Path) : list str :=
  match anchor p with
  | [] => parts p
  | a => a :: parts p
  end.

Fixpoint str_leb (a b : str) : bool :=
  match a, b with
  | [], _ => true
  | _ :: _, [] => false
  | x :: a', y :: b' => (x <? y) || ((x =? y) && str_leb a' b')
  end.

Fixpoint parts_leb (a b : list str) : bool :=
  match a, b with
  | [], _ => true
  | _ :: _, [] => false
  | x :: a', y :: b' =>
      if str_eqb x y then parts_leb a' b' else str_leb x y
  end.

Definition path_leb (p q : Path) : bool := parts_leb (cparts p) (cparts q).

(** [sorted(xs)]: a stable sort by [path_leb]. *)
Fixpoint insert_sorted (p : Path) (xs : list Path) : list Path :=
  match xs with
  | [] => [p]
  | q :: xs' => if path_leb p q then p :: xs else q :: insert_sorted p xs'
  end.

Fixpoint sorted (xs : list Path) : list Path :=
  match xs with
  | [] => []
  | p :: xs' => insert_sorted p (sorted xs')
  end.

End Py.

(* ===================================================================== *)
(** ** The process: host, filesystem, state, exceptions *)
(* ===================================================================== *)

Module Proc.
Import Py.

(** The interpolated parts of an f-string message: the fixed text and the
    values formatted into it. *)
Inductive piece :=
| Text (s : string)
| IntVal (z : Z)
| StrVal (s : str)
| ListVal (l : list str).

Inductive exn :=
| AssertionError (msg : string)
| Exception (msg : list piece)
| KeyError (key : str)
| TypeError
| UnicodeDecodeError
| RuntimeError
| OSError
| ValidationError (fields : list string)
| Foreign (code : N).             (* raised inside a collaborator, by its own code *)

Inductive result (A : Type) :=
| Ok (a : A)
| Raise (e : exn).
Arguments Ok {A} a.
Arguments Raise {A} e.

(** What a call into a collaborator comes back with: a value, or an
    exception of the collaborator's own. *)
Inductive outcome (A : Type) :=
| Returned (a : A)
| Failed (code : N).
Arguments Returned {A} a.
Arguments Failed {A} code.

Definition of_outcome {A} (o : outcome A) : result A :=
  match o with
  | Returned a => Ok a
  | Failed code => Raise (Foreign code)
  end.

(** What a finished child process leaves: [subprocess.CompletedProcess]. *)
Record CompletedProcess := mkProc {
  returncode : Z;
  stdout : list N;      (* bytes for [Binary.exec], text for [BinProvider.exec] *)
  stderr : list N
}.

(** A registered [pydantic_pkgr.Binary]. *)
Inductive Binary := BinaryRef (id : str).

(** A snapshot of what the operating system answers. *)
Record FS := mkFS {
  (* entries below [dir] matching [pattern], as components relative to
     [dir], in the order the directory scan yields them *)
  fs_glob : Path -> str -> list (list str);
  fs_isdir : str -> bool;                 (* os.path.isdir *)
  fs_isfile : Path -> bool;               (* os.path.isfile *)
  fs_access_x : Path -> bool;             (* os.access(_, os.X_OK) *)
  fs_which : str -> str -> option Path;   (* pydantic_pkgr.bin_abspath(name, PATH=..) *)
  fs_playwright : option Path;            (* PLAYWRIGHT_BINARY.load().abspath, None on error *)
  fs_pip : option Path                    (* SYS_PIP_BINPROVIDER.INSTALLER_BIN_ABSPATH *)
}.

(** What the program is given by the machine, the interpreter and the
    packages it imports. *)
Record Host := mkHost {
  platform_system : str;                  (* platform.system() *)
  OPERATING_SYSTEM : str;                 (* pydantic_pkgr.OPERATING_SYSTEM *)
  str_lower : str -> str;                 (* str.lower: the Unicode case mapping *)
  environ_get : str -> option str;        (* os.environ.get *)
  home : option str;                      (* os.path.expanduser('~'), None if unknown *)
  DEFAULT_LIB_DIR : Path;                 (* CONSTANTS.DEFAULT_LIB_DIR *)
  LIB_DIR : Path;                         (* STORAGE_CONFIG.LIB_DIR *)
  DEFAULT_ENV_PATH : str;                 (* pydantic_pkgr.DEFAULT_ENV_PATH *)
  env_PATH : str;                         (* env.PATH *)
  LDAP_LIB : option unit;                 (* the ldap module, None if the import failed *)
  (* the validator of pydantic_pkgr.BinName: the normalised name, None when
     the name is rejected *)
  BinName : str -> option str;
  (* BaseBinProvider.get_packages(bin_name), inherited from pydantic_pkgr *)
  get_packages : str -> list str;
  (* Path.mkdir(parents=True, exist_ok=True); false stands for OSError *)
  os_mkdir : FS -> Path -> bool * FS;
  (* BaseBinProvider.exec(bin_name=.., cmd=..), text mode *)
  provider_exec : FS -> option Path -> list str -> outcome CompletedProcess * FS;
  (* Binary.exec(args, pwd=..), bytes mode *)
  binary_exec : FS -> Binary -> list str -> Path -> outcome CompletedProcess * FS
}.

(** Every question put to the operating system, in order. *)
Inductive Query :=
| QGlob (dir : Path) (pattern : str)
| QIsdir (p : str)
| QIsfile (p : Path)
| QAccess (p : Path)
| QWhich (name path : str)
| QLoad (binary : string)
| QMkdir (p : Path)
| QExec (bin : option Path) (cmd : list str)
| QBinaryExec (b : Binary) (cmd : list str) (pwd : Path).

(** The mutable state of the process. *)
Record World := mkWorld {
  fs : FS;
  trace : list Query;                     (* queries made so far, oldest first *)
  printed : list str;                     (* print(..) calls *)
  err_written : list string;              (* sys.stderr.write(..) calls *)
  BINARIES : gmap str Binary;             (* settings.BINARIES *)
  browser_abspaths : gmap str Path;       (* PlaywrightBinProvider._browser_abspaths *)
  PATH : str                              (* PLAYWRIGHT_BINPROVIDER.PATH *)
}.

Definition set_fs (f : FS) (w : World) : World :=
  mkWorld f (trace w) (printed w) (err_written w) (BINARIES w) (browser_abspaths w) (PATH w).
Definition log (q : Query) (w : World) : World :=
  mkWorld (fs w) (trace w ++ [q]) (printed w) (err_written w) (BINARIES w)
          (browser_abspaths w) (PATH w).
Definition add_printed (s : str) (w : World) : World :=
  mkWorld (fs w) (trace w) (printed w ++ [s]) (err_written w) (BINARIES w)
          (browser_abspaths w) (PATH w).
Definition add_err (s : string) (w : World) : World :=
  mkWorld (fs w) (trace w) (printed w) (err_written w ++ [s]) (BINARIES w)
          (browser_abspaths w) (PATH w).
Definition set_cache (c : gmap str Path) (w : World) : World :=
  mkWorld (fs w) (trace w) (printed w) (err_written w) (BINARIES w) c (PATH w).
Definition set_PATH (p : str) (w : World) : World :=
  mkWorld (fs w) (trace w) (printed w) (err_written w) (BINARIES w)
          (browser_abspaths w) p.

(** Computations that read and change the process and may raise. *)
Definition M (A : Type) : Type := World -> result A * World.

Definition ret {A} (a : A) : M A := fun w => (Ok a, w).
Definition raise {A} (e : exn) : M A := fun w => (Raise e, w).
Definition bind {A B} (c : M A) (k : A -> M B) : M B :=
  fun w => match c w with
           | (Ok a, w') => k a w'
           | (Raise e, w') => (Raise e, w')
           end.

Declare Scope proc_scope.
Delimit Scope proc_scope with proc.
Notation "x ← y ; z" := (bind y (fun x => z))
  (at level 20, y at level 100, z at level 200, only parsing) : proc_scope.
Notation "x ;; z" := (bind x (fun _ => z))
  (at level 100, z at level 200, only parsing, right associativity) : proc_scope.
Open Scope proc_scope.

Definition get : M World := fun w => (Ok w, w).
Definition modify (f : World -> World) : M unit := fun w => (Ok tt, f w).

(** [assert cond, msg] *)
Definition assert (cond : bool) (msg : string) : M unit :=
  if cond then ret tt else raise (AssertionError msg).

(** [print(s)] *)
Definition print (s : str) : M unit := modify (add_printed s).

(** Queries: each is answered by the current snapshot and logged. *)
Definition ask {A} (q : Query) (answer : FS -> A) : M A :=
  fun w => (Ok (answer (fs w)), log q w).

Definition glob_list (dir : Path) (pattern : str) : M (list Path) :=
  ask (QGlob dir pattern) (fun f => map (below dir) (fs_glob f dir pattern)).
Definition isdir (p : str) : M bool := ask (QIsdir p) (fun f => fs_isdir f p).
Definition isfile (p : Path) : M bool := ask (QIsfile p) (fun f => fs_isfile f p).
Definition access_x (p : Path) : M bool := ask (QAccess p) (fun f => fs_access_x f p).
Definition bin_abspath (nm path : str) : M (option Path) :=
  ask (QWhich nm path) (fun f => fs_which f nm path).

(** [Path.glob(pattern)] returns a generator: nothing is read from the
    filesystem until it is iterated. *)
Record generator := Path_glob { gen_dir : Path; gen_pattern : str }.

(** [bool(g)] for a generator object: it defines neither [__bool__] nor
    [__len__], so its truth value is True whatever it would yield. *)
Definition generator_truthy (g : generator) : bool := true.

(** [list(g)]: iterating runs the directory scan. *)
Definition list_of (g : generator) : M (list Path) :=
  glob_list (gen_dir g) (gen_pattern g).

(** [keeps P E c]: whatever [c] does, a property [P] of the cache of browser
    paths that holds before holds after, and an exception [c] raises
    satisfies [E]. *)
Definition keeps {A : Type} (P : gmap str Path -> Prop) (E : exn -> Prop) (c : M A) : Prop :=
  forall w r w', c w = (r, w') ->
    P (browser_abspaths w) ->
    P (browser_abspaths w') /\ (forall e, r = Raise e -> E e).

End Proc.

(* ===================================================================== *)
(** ** archivebox/plugantic/base_extractor.py *)
(* ===================================================================== *)

Module Extractor.
Import Py Proc.

(** [no_empty_args]: [assert all(len(arg) for arg in args)]; [return args]. *)
Definition no_empty_args (args : list str) : result (list str) :=
  if forallb (fun arg => negb (Nat.eqb (length arg) 0)) args
  then Ok args
  else Raise (AssertionError "").

(** A [HandlerFuncStr] field holds its default, a [str], or what the
    AfterValidator returned for a supplied value: the bool
    [s.startswith('self.')]. *)
Inductive handler_val :=
| HName (s : str)
| HBool (b : bool).

Definition HandlerFuncStr (default : string) (supplied : option str) : handler_val :=
  match supplied with
  | None => HName (lit default)
  | Some s => HBool (startswith (lit "self.") s)
  end.

(** Keyword arguments of [BaseExtractor(...)]; [None] is a keyword left out. *)
Record kwargs := mkKwargs {
  kw_name : str;
  kw_binary : str;
  kw_output_path_func : option str;
  kw_should_extract_func : option str;
  kw_extract_func : option str;
  kw_exec_func : option str;
  kw_default_args : option (list str);
  kw_extra_args : option (list str);
  kw_args : option (list str)
}.

Record BaseExtractor := mkExtractor {
  name : str;
  binary : str;
  output_path_func : handler_val;
  should_extract_func : handler_val;
  extract_func : handler_val;
  exec_func : handler_val;
  default_args : list str;
  extra_args : list str;
  args : option (list str)
}.

(** [CmdArgsList] on a supplied value; a default is taken as it is. *)
Definition CmdArgsList_ok (supplied : option (list str)) : bool :=
  match supplied with
  | None => true
  | Some l => match no_empty_args l with Ok _ => true | Raise _ => false end
  end.

Section WithHost.
Context (h : Host).

(** The fields whose validation fails, in declaration order. *)
Definition field_errors (kw : kwargs) : list string :=
  (if some_truthy (BinName h (kw_binary kw)) then [] else ["binary"%string])
  ++ (if CmdArgsList_ok (kw_default_args kw) then [] else ["default_args"%string])
  ++ (if CmdArgsList_ok (kw_extra_args kw) then [] else ["extra_args"%string])
  ++ (if CmdArgsList_ok (kw_args kw) then [] else ["args"%string]).

(** [validate_model] (mode='after'). *)
Definition validate_model (self : BaseExtractor) : BaseExtractor :=
  match args self with
  | None =>
      mkExtractor (name self) (binary self) (output_path_func self)
        (should_extract_func self) (extract_func self) (exec_func self)
        (default_args self) (extra_args self)
        (Some (default_args self ++ extra_args self))
  | Some _ => self
  end.

(** The constructor [BaseExtractor] on keyword arguments: field validation,
    then the model validator. *)
Definition construct (kw : kwargs) : result BaseExtractor :=
  match field_errors kw with
  | [] =>
      Ok (validate_model
            {| name := kw_name kw;
               binary := default (kw_binary kw) (BinName h (kw_binary kw));
               output_path_func :=
                 HandlerFuncStr "self.get_output_path" (kw_output_path_func kw);
               should_extract_func :=
                 HandlerFuncStr "self.should_extract" (kw_should_extract_func kw);
               extract_func := HandlerFuncStr "self.extract" (kw_extract_func kw);
               exec_func := HandlerFuncStr "self.exec" (kw_exec_func kw);
               default_args := default [] (kw_default_args kw);
               extra_args := default [] (kw_extra_args kw);
               args := kw_args kw |})
  | errs => Raise (ValidationError errs)
  end.

Definition get_output_path (self : BaseExtractor) (snapshot : str) : Path :=
  PathOf (name self).

(** [should_extract]: the test is on the generator object itself. *)
Definition should_extract (self : BaseExtractor) (snapshot : str) : M bool :=
  let output_dir := get_output_path self snapshot in
  if generator_truthy (Path_glob output_dir (lit "*.*"))
  then ret false
  else ret true.

(** [exec] *)
Definition exec (self : BaseExtractor) (args : list str) (pwd : option Path)
  : M CompletedProcess :=
  let pwd := match pwd with Some p => p | None => PathOf (lit ".") end in
  w ← get;
  match BINARIES w !! binary self with
  | None => raise (KeyError (binary self))
  | Some b =>
      fun w => let '(r, f') := binary_exec h (fs w) b args pwd in
               (of_outcome r, set_fs f' (log (QBinaryExec b args pwd) w))
  end.

(** The dict returned by [extract]. *)
Record ExtractResult := mkResult {
  status : string;
  output : str;
  output_files : list Path;
  res_stdout : str;
  res_stderr : str;
  res_returncode : Z
}.

(** [b.decode()] *)
Definition decode_or_raise (b : bytes) : M str :=
  match decode b with
  | Some s => ret s
  | None => raise UnicodeDecodeError
  end.

(** [cmd] *)
Definition command (self : BaseExtractor) (url : str) : list str :=
  match args self with
  | Some a => url :: a
  | None => url :: default_args self ++ extra_args self
  end.

(** [extract] on a url and keyword arguments; these are passed on to
    [get_output_path], which takes none. *)
Definition extract (self : BaseExtractor) (url : str) (kwargs : list (str * str))
  : M ExtractResult :=
  output_dir ← match kwargs with
               | [] => ret (get_output_path self url)
               | _ => raise TypeError
               end;
  let cmd := command self url in
  proc ← exec self cmd (Some output_dir);
  let status := if (returncode proc =? 0)%Z then "succeeded"%string else "failed"%string in
  out ← decode_or_raise (stdout proc);
  let output := last_item (split [NL] (strip out)) in
  files ← list_of (Path_glob output_dir (lit "*.*"));
  so ← decode_or_raise (stdout proc);
  se ← decode_or_raise (stderr proc);
  ret {| status := status;
          output := output;
          output_files := files;
          res_stdout := strip so;
          res_stderr := strip se;
          res_returncode := returncode proc |}.

End WithHost.


(** Objects are shared: a registry holds references to extractor objects,
    and a settings object is itself passed by reference.  An extractor
    object is its fields and its [_plugin] attribute. *)
Record ExtractorObject := mkObject {
  fields : BaseExtractor;
  _plugin : option str
}.

Record Memory := mkMemory {
  settings_objects : gmap N (gmap str N);     (* settings object -> its EXTRACTORS *)
  extractor_objects : gmap N ExtractorObject
}.

(** [register(self, settings, parent_plugin)]: [self._plugin] is set on the
    object, then the object is stored under its name in the EXTRACTORS of
    [settings], or of the Django settings [django_settings] when [settings]
    is None.  The result is None only for a reference to no object, which
    a running program does not hold. *)
Definition register (django_settings : N) (self : N) (settings : option N)
  (parent_plugin : option str) (m : Memory) : option Memory :=
  match extractor_objects m !! self with
  | None => None
  | Some obj =>
      let settings := default django_settings settings in
      let objects := <[self := mkObject (fields obj) parent_plugin]> (extractor_objects m) in
      match settings_objects m !! settings with
      | None => None
      | Some EXTRACTORS =>
          Some (mkMemory
                  (<[settings := <[name (fields obj) := self]> EXTRACTORS]>
                     (settings_objects m))
                  objects)
      end
  end.

End Extractor.

(* ===================================================================== *)
(** ** archivebox/plugins_auth/ldap/settings.py *)
(* ===================================================================== *)

Module Ldap.
Import Py Proc.

(** The fields of [LdapConfig]; a [str] field left out holds its default
    None. *)
Record LdapConfig := mkLdapConfig {
  LDAP_ENABLED : bool;
  LDAP_SERVER_URI : option str;
  LDAP_BIND_DN : option str;
  LDAP_BIND_PASSWORD : option str;
  LDAP_USER_BASE : option str;
  LDAP_USER_FILTER : option str;
  LDAP_CREATE_SUPERUSER : bool;
  LDAP_USERNAME_ATTR : option str;
  LDAP_FIRSTNAME_ATTR : option str;
  LDAP_LASTNAME_ATTR : option str;
  LDAP_EMAIL_ATTR : option str
}.

Definition set_LDAP_ENABLED (b : bool) (c : LdapConfig) : LdapConfig :=
  mkLdapConfig b (LDAP_SERVER_URI c) (LDAP_BIND_DN c) (LDAP_BIND_PASSWORD c)
    (LDAP_USER_BASE c) (LDAP_USER_FILTER c) (LDAP_CREATE_SUPERUSER c)
    (LDAP_USERNAME_ATTR c) (LDAP_FIRSTNAME_ATTR c) (LDAP_LASTNAME_ATTR c)
    (LDAP_EMAIL_ATTR c).

(** The five companion fields are all set and non-empty. *)
Definition companions_set (c : LdapConfig) : bool :=
  opt_str_truthy (LDAP_SERVER_URI c)
  && opt_str_truthy (LDAP_BIND_DN c)
  && opt_str_truthy (LDAP_BIND_PASSWORD c)
  && opt_str_truthy (LDAP_USER_BASE c)
  && opt_str_truthy (LDAP_USER_FILTER c).

Definition newline : string := String (ascii_of_nat 10) EmptyString.

Definition missing_packages_warning : string :=
  ("[X] Error: Found LDAP=True config but LDAP packages not installed. You may need to run: pip install archivebox[ldap]"
   ++ newline ++ newline)%string.

Section WithHost.
Context (h : Host).

(** [validate_ldap_config] (mode='after'). *)
Definition validate_ldap_config (self : LdapConfig) : M LdapConfig :=
  self ← (if LDAP_ENABLED self && negb (some_truthy (LDAP_LIB h))
          then modify (add_err missing_packages_warning);;
               ret (set_LDAP_ENABLED false self)
          else ret self);
  (if LDAP_ENABLED self
   then assert (companions_set self)
          "LDAP_* config options must all be set if LDAP_ENABLED=True"
   else ret tt);;
  ret self.

(** The constructor [LdapConfig] on field values: an AssertionError of the
    validator surfaces as the ValidationError of the model. *)
Definition construct (fields : LdapConfig) : M LdapConfig :=
  fun w => match validate_ldap_config fields w with
           | (Raise (AssertionError _), w') => (Raise (ValidationError ["LdapConfig"%string]), w')
           | r => r
           end.

End WithHost.

Definition LDAP_USER_ATTR_MAP (self : LdapConfig) : list (string * option str) :=
  [ ("username"%string, LDAP_USERNAME_ATTR self);
    ("first_name"%string, LDAP_FIRSTNAME_ATTR self);
    ("last_name"%string, LDAP_LASTNAME_ATTR self);
    ("email"%string, LDAP_EMAIL_ATTR self) ].

(** What [LDAPSearch(base_dn, scope, filterstr)] is built from; the scope is
    always [SCOPE_SUBTREE]. *)
Record LDAPSearch := mkLDAPSearch {
  base_dn : option str;
  filterstr : str
}.

(** ['(&(' + a + '=%(user)s)' + f + ')']: adding None to a [str] is a
    TypeError; the additions run from left to right. *)
Definition search_filter (a f : option str) : result str :=
  match a with
  | None => Raise TypeError
  | Some a =>
      match f with
      | None => Raise TypeError
      | Some f => Ok (lit "(&(" ++ a ++ lit "=%(user)s)" ++ f ++ lit ")")
      end
  end.

(** The property [AUTH_LDAP_USER_SEARCH]: [LDAP_LIB and LDAPSearch(..)]. *)
Definition AUTH_LDAP_USER_SEARCH (h : Host) (self : LdapConfig) : result (option LDAPSearch) :=
  match LDAP_LIB h with
  | None => Ok None
  | Some _ =>
      match search_filter (LDAP_USERNAME_ATTR self) (LDAP_USER_FILTER self) with
      | Ok f => Ok (Some (mkLDAPSearch (LDAP_USER_BASE self) f))
      | Raise e => Raise e
      end
  end.

Definition AUTHENTICATION_BACKENDS (self : LdapConfig) : list string :=
  [ "django.contrib.auth.backends.ModelBackend"%string;
    "django_auth_ldap.backend.LDAPBackend"%string ].

End Ldap.

(* ===================================================================== *)
(** ** archivebox/plugins_pkg/playwright/binproviders.py *)
(* ===================================================================== *)

Module Playwright.
Import Py Proc.

Definition MACOS_PLAYWRIGHT_CACHE_DIR : Path := PathOf (lit "~/Library/Caches/ms-playwright").
Definition LINUX_PLAYWRIGHT_CACHE_DIR : Path := PathOf (lit "~/.cache/ms-playwright").

Definition class_name : string := "PlaywrightBinProvider".
Definition INSTALLER_BIN : str := lit "playwright".

(** The field [packages_handler].  [get_packages] is inherited from the base
    provider, which is not part of these files: it is taken from the host. *)
Definition packages_handler : gmap str (list str) :=
  {[ lit "chrome" := [lit "chromium"] ]}.

Definition abspath_assert_msg : string :=
  "Only chrome is supported using the @puppeteer/browsers install method currently.".
Definition install_assert_msg : string :=
  "Only chrome is supported using the playwright install method currently.".

Section WithHost.
Context (h : Host).

(** [p.expanduser()] for a path that starts with the component '~'. *)
Definition expanduser (p : Path) : M Path :=
  match anchor p, parts p with
  | [], tilde :: rest =>
      if str_eqb tilde (lit "~")
      then match home h with
           | Some d => ret (below (PathOf d) rest)
           | None => raise RuntimeError
           end
      else ret p
  | _, _ => ret p
  end.

(** The property [INSTALLER_BIN_ABSPATH], computed at each access. *)
Definition INSTALLER_BIN_ABSPATH : M (option Path) :=
  ask (QLoad "playwright") fs_playwright.

(** The property [playwright_browsers_dir], computed at each access. *)
Definition playwright_browsers_dir : M Path :=
  let dir_path := environ_get h (lit "PLAYWRIGHT_BROWSERS_PATH") in
  use_env ← (if opt_str_truthy dir_path
             then isdir (default [] dir_path)
             else ret false);
  if use_env then ret (PathOf (default [] dir_path))
  else if str_eqb (OPERATING_SYSTEM h) (lit "darwin")
       then expanduser MACOS_PLAYWRIGHT_CACHE_DIR
       else expanduser LINUX_PLAYWRIGHT_CACHE_DIR.

(** [Path.mkdir(parents=True, exist_ok=True)] *)
Definition mkdir (p : Path) : M unit :=
  fun w => let '(ok, f') := os_mkdir h (fs w) p in
           (if ok then Ok tt else Raise OSError, set_fs f' (log (QMkdir p) w)).

(** [BaseBinProvider.exec] *)
Definition exec (bin_name : option Path) (cmd : list str) : M CompletedProcess :=
  fun w => let '(r, f') := provider_exec h (fs w) bin_name cmd in
           (of_outcome r, set_fs f' (log (QExec bin_name cmd) w)).

Definition setup : M unit :=
  (if bool_decide (cparts (LIB_DIR h) = cparts (DEFAULT_LIB_DIR h))
   then ret tt
   else modify (set_PATH (str_of (div (LIB_DIR h) (lit "bin")) ++ lit ":"
                          ++ DEFAULT_ENV_PATH h)));;
  pip ← ask (QLoad "pip") fs_pip;
  assert (some_truthy pip) "Pip bin provider not initialized";;
  _ ← playwright_browsers_dir;     (* a Path is always true *)
  d ← playwright_browsers_dir;
  mkdir d.

(** One turn of the loop of [installed_browser_bins]. *)
Definition keep_browser_bin (paths : list Path) (path : Path) : list Path :=
  if contains (lit "xdg-settings") (str_of path) then paths
  else if contains (lit "ffmpeg") (str_of path) then paths
  else if contains (lit "/chrom") (str_of path)
          && contains (lit "chrom") (str_lower h (Py.name path))
       then paths ++ [path]
       else paths.

Definition installed_browser_bins (browser_name : str) : M (list Path) :=
  let browser_name :=
    if str_eqb browser_name (lit "chrome") then lit "chromium" else browser_name in
  if str_eqb (str_lower h (platform_system h)) (lit "darwin")
  then
    d ← playwright_browsers_dir;
    found ← glob_list d (browser_name ++ lit "-*/*-mac*/*.app/Contents/MacOS/*");
    ret (sorted found)
  else
    d ← playwright_browsers_dir;
    found ← glob_list d (browser_name ++ lit "-*/*-linux/*");
    ret (fold_left keep_browser_bin (sorted found) []).

Definition cache_put (bin_name : str) (p : Path) : M unit :=
  modify (fun w => set_cache (<[bin_name := p]> (browser_abspaths w)) w).

Definition default_abspath_handler (bin_name : str) : M (option Path) :=
  assert (str_eqb bin_name (lit "chrome")) abspath_assert_msg;;
  w ← get;
  match browser_abspaths w !! bin_name with
  | Some p => ret (Some p)
  | None =>
      bins ← installed_browser_bins (lit "*");
      let matching_bins := filter (fun abspath => contains bin_name (str_of abspath) = true) bins in
      match last matching_bins with   (* [if matching_bins:] then [matching_bins[-1]] *)
      | Some newest_bin =>
          cache_put bin_name newest_bin;;
          ret (Some newest_bin)
      | None =>
          abspath ← bin_abspath (lit "google-chrome-stable") (env_PATH h);
          match abspath with
          | Some p => cache_put bin_name p;; ret (Some p)
          | None => ret None
          end
      end
  end.

(** The condition of the comprehension that builds [output_lines]. *)
Definition is_output_line (line : str) : bool :=
  contains (lit "/chrom") line
  && contains (lit "chrom") (str_lower h (after_last SLASH line))
  && negb (contains (lit "xdg-settings") line)
  && negb (contains (lit "ffmpeg") line).

Definition install_failed_msg (rc : Z) (packages : list str) : list piece :=
  [ Text class_name; Text ": install got returncode "; IntVal rc;
    Text " while installing "; ListVal packages; Text ": "; ListVal packages;
    Text " PACKAGES="; ListVal packages ].

Definition not_available_msg : list piece :=
  [ Text class_name; Text " install method is not available on this host (";
    StrVal INSTALLER_BIN; Text " not found in $PATH)" ].

(** The handler [default_install_handler], in the order of its statements:
    the dependency sub-step, the package install step, the scan of the
    captured output, and the function that runs them in turn. *)

(** [playwright install-deps], skipped on macOS. *)
Definition install_deps : M unit :=
  if str_eqb (str_lower h (platform_system h)) (lit "darwin")
  then ret tt
  else
    installer ← INSTALLER_BIN_ABSPATH;
    proc ← exec installer [lit "install-deps"];
    if (returncode proc =? 0)%Z then ret tt
    else print (strip (stdout proc));; print (strip (stderr proc)).

(** [playwright install *packages] *)
Definition install_packages (packages : list str) : M CompletedProcess :=
  installer ← INSTALLER_BIN_ABSPATH;
  proc ← exec installer (lit "install" :: packages);
  if (returncode proc =? 0)%Z then ret proc
  else print (strip (stdout proc));;
       print (strip (stderr proc));;
       raise (Exception (install_failed_msg (returncode proc) packages)).

(** [output_lines] *)
Definition output_lines (out : str) : list str :=
  filter (fun line => is_output_line line = true) (split [NL] (strip out)).

(** The path named by the first output line is cached if it is an
    executable file. *)
Definition record_installed (bin_name : str) (proc : CompletedProcess) : M unit :=
  match output_lines (stdout proc) with
  | line0 :: _ =>
      d ← playwright_browsers_dir;
      let relpath := last_item (split (str_of d) line0) in
      d' ← playwright_browsers_dir;
      let abspath := div d' relpath in
      is_file ← isfile abspath;
      executable ← (if is_file then access_x abspath else ret false);
      if executable then cache_put bin_name abspath else ret tt
  | [] => ret tt
  end.

(** What the handler returns: stderr and stdout, stripped and joined. *)
Definition combined_output (proc : CompletedProcess) : str :=
  strip (strip (stderr proc) ++ [NL] ++ strip (stdout proc)).

Definition default_install_handler (bin_name : str) (packages : option (list str))
  : M str :=
  setup;;
  assert (str_eqb bin_name (lit "chrome")) install_assert_msg;;
  installer ← INSTALLER_BIN_ABSPATH;
  (if some_truthy installer then ret tt else raise (Exception not_available_msg));;
  let packages := match packages with
                  | Some (p :: ps) => p :: ps
                  | _ => get_packages h bin_name
                  end in
  install_deps;;
  proc ← install_packages packages;
  record_installed bin_name proc;;
  ret (combined_output proc).

End WithHost.
End Playwright.

(* ===================================================================== *)
(** ** Reference definitions and concrete hosts *)
(* ===================================================================== *)

Module Reference.
Import Py.

(** The last non-empty line of a text, read off the words: cut the text at
    its newlines, keep the lines that are not empty, take the last. *)
Definition last_nonempty_line (s : str) : option str :=
  last (filter (fun l => l <> []) (split [NL] s)).

(** [ordered l]: every path of [l] is below all the paths after it, in the
    order [sorted] sorts by. *)
Definition precedes (p q : Path) : Prop := path_leb p q = true.
Definition ordered (l : list Path) : Prop := StronglySorted precedes l.

(** The paths the loop of [installed_browser_bins] keeps. *)
Definition kept_browser_bin (h : Proc.Host) (p : Path) : Prop :=
  contains (lit "xdg-settings") (str_of p) = false
  /\ contains (lit "ffmpeg") (str_of p) = false
  /\ contains (lit "/chrom") (str_of p)
     && contains (lit "chrom") (Proc.str_lower h (Py.name p)) = true.

#[global] Instance kept_browser_bin_dec h p : Decision (kept_browser_bin h p).
Proof. unfold kept_browser_bin. apply _. Defined.

(** A path free of the names of the tools shipped beside the browser. *)
Definition no_ancillary_tool (p : Path) : Prop :=
  contains (lit "ffmpeg") (str_of p) = false
  /\ contains (lit "xdg-settings") (str_of p) = false.

(** The candidates of [default_abspath_handler] among the installed
    binaries: the paths that mention the binary name. *)
Definition candidates (bin_name : str) (bins : list Path) : list Path :=
  filter (fun abspath => contains bin_name (str_of abspath) = true) bins.

(** What a child process run by the install handler makes it print: its
    stripped stdout and stderr when the exit code is not zero. *)
Definition failure_log (proc : Proc.CompletedProcess) : list str :=
  if (Proc.returncode proc =? 0)%Z then []
  else [strip (Proc.stdout proc); strip (Proc.stderr proc)].

(** The packages the install handler installs. *)
Definition resolved_packages (h : Proc.Host) (bin_name : str)
  (packages : option (list str)) : list str :=
  match packages with
  | Some (p :: ps) => p :: ps
  | _ => Proc.get_packages h bin_name
  end.

(** The world [extract] leaves behind once the child process has run and
    before the output directory is listed. *)
Definition after_extract (self : Extractor.BaseExtractor) (url : str)
  (b : Proc.Binary) (f' : Proc.FS) (w : Proc.World) : Proc.World :=
  let dir := Extractor.get_output_path self url in
  Proc.set_fs f' (Proc.log (Proc.QBinaryExec b (Extractor.command self url) dir) w).


(** The value of PLAYWRIGHT_BROWSERS_PATH on the host. *)
Definition browsers_path_env (h : Proc.Host) : option str :=
  Proc.environ_get h (lit "PLAYWRIGHT_BROWSERS_PATH").

(** Where playwright keeps its browsers below the home directory. *)
Definition default_cache_parts (h : Proc.Host) : list str :=
  if str_eqb (Proc.OPERATING_SYSTEM h) (lit "darwin")
  then [lit "Library"; lit "Caches"; lit "ms-playwright"]
  else [lit ".cache"; lit "ms-playwright"].

(** The browsers directory on filesystem [f]: the directory named by the
    environment when it names one, the default below the home directory
    otherwise. *)
Definition browsers_dir_on (h : Proc.Host) (f : Proc.FS) : Proc.result Path :=
  if opt_str_truthy (browsers_path_env h)
     && Proc.fs_isdir f (default [] (browsers_path_env h))
  then Proc.Ok (PathOf (default [] (browsers_path_env h)))
  else match Proc.home h with
       | Some d => Proc.Ok (below (PathOf d) (default_cache_parts h))
       | None => Proc.Raise Proc.RuntimeError
       end.

(** The process after the browsers directory was computed: the directory
    test is logged when the environment names a path. *)
Definition asked_browsers_dir (h : Proc.Host) (w : Proc.World) : Proc.World :=
  if opt_str_truthy (browsers_path_env h)
  then Proc.log (Proc.QIsdir (default [] (browsers_path_env h))) w
  else w.

(** The value [setup] gives to the search path of the provider. *)
Definition PATH_after_setup (h : Proc.Host) (before : str) : str :=
  if bool_decide (cparts (Proc.LIB_DIR h) = cparts (Proc.DEFAULT_LIB_DIR h))
  then before
  else str_of (div (Proc.LIB_DIR h) (lit "bin")) ++ lit ":" ++ Proc.DEFAULT_ENV_PATH h.

(** The pattern [installed_browser_bins] searches with. *)
Definition browser_pattern (h : Proc.Host) (browser_name : str) : str :=
  (if str_eqb browser_name (lit "chrome") then lit "chromium" else browser_name)
  ++ (if str_eqb (Proc.str_lower h (Proc.platform_system h)) (lit "darwin")
      then lit "-*/*-mac*/*.app/Contents/MacOS/*"
      else lit "-*/*-linux/*").

(** The matches of the pattern of [installed_browser_bins] below directory
    [d] on filesystem [f]. *)
Definition browser_matches (h : Proc.Host) (f : Proc.FS) (browser_name : str) (d : Path)
  : list Path :=
  map (below d) (Proc.fs_glob f d (browser_pattern h browser_name)).

(** The file the install handler looks for: the part of the output line
    after the last occurrence of the browsers directory, joined to that
    directory. *)
Definition referenced_path (d : Path) (line : str) : Path :=
  div d (last_item (split (str_of d) line)).

(** The keyword arguments [kw] with other handler names. *)
Definition with_handlers (kw : Extractor.kwargs) (a b c d : option str) : Extractor.kwargs :=
  Extractor.mkKwargs (Extractor.kw_name kw) (Extractor.kw_binary kw) a b c d
    (Extractor.kw_default_args kw) (Extractor.kw_extra_args kw) (Extractor.kw_args kw).

End Reference.

Module Scenario.
Import Py Proc.

(** A filesystem given by the table of its glob answers, (directory,
    pattern, entry below the directory), and by its search-path lookup. *)
Definition glob_table (tbl : list (str * str * str)) (dir : Path) (pat : str)
  : list (list str) :=
  flat_map (fun '(d, p, e) =>
              if str_eqb d (str_of dir) && str_eqb p pat
              then [parts (PathOf e)] else []) tbl.

Definition mk_fs (tbl : list (str * str * str)) (which : str -> str -> option Path) : FS :=
  mkFS (glob_table tbl) (fun _ => false) (fun _ => true) (fun _ => true) which
       (Some (PathOf (lit "/usr/bin/playwright"))) (Some (PathOf (lit "/usr/bin/pip"))).

Definition empty_fs : FS := mk_fs [] (fun _ _ => None).

(** A host whose child processes leave the filesystem as it is: [deps] is
    what install-deps leaves, [inst] what install leaves, [bproc] what a
    registered binary leaves. *)
Definition mk_host (system : str) (ldap : option unit)
  (deps inst bproc : CompletedProcess) : Host :=
  mkHost system (ascii_lower system) ascii_lower (fun _ => None) (Some (lit "/home/u"))
    (PathOf (lit "/data/lib")) (PathOf (lit "/data/lib")) (lit "/usr/bin") (lit "/usr/bin")
    ldap (fun nm => if str_truthy nm then Some nm else None) (fun nm => [nm])
    (fun f _ => (true, f))
    (fun f _ cmd =>
       (Returned (if str_eqb (first_item cmd) (lit "install-deps") then deps else inst), f))
    (fun f _ _ _ => (Returned bproc, f)).

Definition quiet : CompletedProcess := mkProc 0 [] [].

(** A host on which every registered binary leaves [p]. *)
Definition linux_running (p : CompletedProcess) : Host :=
  mk_host (lit "Linux") (Some tt) quiet quiet p.


(** One line of stdout that ends in a space. *)
Definition trailing_space : CompletedProcess := mkProc 0 (lit "b " ++ [NL]) [].

(** A host on which install-deps leaves [deps] and install leaves [inst]. *)
Definition linux_installing (deps inst : CompletedProcess) : Host :=
  mk_host (lit "Linux") (Some tt) deps inst quiet.

(** Exit code 0 and an output that names no browser binary. *)
Definition installed_silently : CompletedProcess := mkProc 0 (lit "done") [].

(** Two failed installs with the same exit code and different output. *)
Definition disk_full : CompletedProcess :=
  mkProc 1 (lit "no space left on device") (lit "E: write failed").
Definition no_network : CompletedProcess :=
  mkProc 1 (lit "could not reach the download host") (lit "E: timeout").

(** A dependency sub-step that fails. *)
Definition deps_failed : CompletedProcess :=
  mkProc 100 (lit "apt-get not found") (lit "E: install-deps failed").



(** Two lines of output and an index page written below the output
    directory. *)
Definition two_lines : CompletedProcess :=
  mkProc 0 (lit "fetching" ++ [NL] ++ lit "saved index.html" ++ [NL]) (lit " warn ").

Definition linux : Host := mk_host (lit "Linux") (Some tt) quiet quiet quiet.
Definition macos : Host := mk_host (lit "Darwin") (Some tt) quiet quiet quiet.
Definition linux_without_ldap : Host := mk_host (lit "Linux") None quiet quiet quiet.

(** A process that has just started on filesystem [f]. *)
Definition fresh (f : FS) : World :=
  mkWorld f [] [] [] {[ lit "wget" := BinaryRef (lit "wget") ]} ∅ (lit "/data/lib/bin:/usr/bin").

(** The browser cache of user u on Linux and on macOS. *)
Definition linux_cache : str := lit "/home/u/.cache/ms-playwright".
Definition macos_cache : str := lit "/home/u/Library/Caches/ms-playwright".

(** Two chromium builds, with the tools shipped beside them. *)
Definition linux_cache_fs : FS :=
  mk_fs [ (linux_cache, lit "*-*/*-linux/*", lit "chromium-1097/chrome-linux/chrome");
          (linux_cache, lit "*-*/*-linux/*", lit "ffmpeg-1010/ffmpeg-linux/ffmpeg");
          (linux_cache, lit "*-*/*-linux/*", lit "chromium-1200/chrome-linux/chrome");
          (linux_cache, lit "*-*/*-linux/*", lit "chromium-1200/chrome-linux/xdg-settings") ]
        (fun _ _ => None).

Definition chromium_1200 : Path :=
  PathOf (lit "/home/u/.cache/ms-playwright/chromium-1200/chrome-linux/chrome").

(** No browser in the cache, google-chrome-stable on the search path. *)
Definition system_chrome : Path := PathOf (lit "/usr/bin/google-chrome-stable").
Definition system_chrome_fs : FS :=
  mk_fs [] (fun nm path =>
              if str_eqb nm (lit "google-chrome-stable") && str_eqb path (lit "/usr/bin")
              then Some system_chrome else None).

(** A macOS cache with one bundle, laid out as the macOS pattern asks,
    in a build directory named after ffmpeg. *)
Definition macos_ffmpeg_fs : FS :=
  mk_fs [ (macos_cache, lit "*-*/*-mac*/*.app/Contents/MacOS/*",
           lit "ffmpeg-1010/chrome-mac/Chromium.app/Contents/MacOS/Chromium") ]
        (fun _ _ => None).

Definition macos_ffmpeg_bin : Path :=
  PathOf (lit "/home/u/Library/Caches/ms-playwright/ffmpeg-1010/chrome-mac/Chromium.app/Contents/MacOS/Chromium").

(** A host like [linux] with PLAYWRIGHT_BROWSERS_PATH set to [p]. *)
Definition linux_with_browsers_path (p : str) : Host :=
  mkHost (lit "Linux") (lit "linux") ascii_lower
    (fun k => if str_eqb k (lit "PLAYWRIGHT_BROWSERS_PATH") then Some p else None)
    (Some (lit "/home/u"))
    (PathOf (lit "/data/lib")) (PathOf (lit "/opt/archivebox/lib")) (lit "/usr/bin")
    (lit "/usr/bin") (Some tt) (fun nm => if str_truthy nm then Some nm else None)
    (fun nm => [nm])
    (fun f _ => (true, f))
    (fun f _ _ => (Returned quiet, f))
    (fun f _ _ _ => (Returned quiet, f)).

(** A host like [linux] on which no directory can be created. *)
Definition linux_mkdir_denied : Host :=
  mkHost (lit "Linux") (lit "linux") ascii_lower (fun _ => None) (Some (lit "/home/u"))
    (PathOf (lit "/data/lib")) (PathOf (lit "/data/lib")) (lit "/usr/bin")
    (lit "/usr/bin") (Some tt) (fun nm => if str_truthy nm then Some nm else None)
    (fun nm => [nm])
    (fun f _ => (false, f))
    (fun f _ _ => (Returned quiet, f))
    (fun f _ _ _ => (Returned quiet, f)).

(** A filesystem on which /srv/browsers is a directory. *)
Definition srv_browsers_fs : FS :=
  mkFS (fun _ _ => []) (fun p => str_eqb p (lit "/srv/browsers")) (fun _ => true)
       (fun _ => true) (fun _ _ => None)
       (Some (PathOf (lit "/usr/bin/playwright"))) (Some (PathOf (lit "/usr/bin/pip"))).

(** A filesystem without pip and one without playwright. *)
Definition no_pip_fs : FS :=
  mkFS (fun _ _ => []) (fun _ => false) (fun _ => true) (fun _ => true) (fun _ _ => None)
       (Some (PathOf (lit "/usr/bin/playwright"))) None.
Definition no_playwright_fs : FS :=
  mkFS (fun _ _ => []) (fun _ => false) (fun _ => true) (fun _ => true) (fun _ _ => None)
       None (Some (PathOf (lit "/usr/bin/pip"))).

(** An install that names the browser it downloaded below the cache. *)
Definition installed_chromium : CompletedProcess :=
  mkProc 0 (lit "Chromium 129 downloaded to /home/u/.cache/ms-playwright/chromium-1200/chrome-linux/chrome") [].

Definition wget_kwargs : Extractor.kwargs :=
  Extractor.mkKwargs (lit "wget") (lit "wget") None None None None
    (Some [lit "--no-check-certificate"]) None None.

Definition wget : Extractor.BaseExtractor :=
  Extractor.mkExtractor (lit "wget") (lit "wget")
    (Extractor.HName (lit "self.get_output_path"))
    (Extractor.HName (lit "self.should_extract"))
    (Extractor.HName (lit "self.extract"))
    (Extractor.HName (lit "self.exec"))
    [lit "--no-check-certificate"] [] (Some [lit "--no-check-certificate"]).

Definition example_url : str := lit "https://example.com".

Definition curl_kwargs : Extractor.kwargs :=
  Extractor.mkKwargs (lit "curl") (lit "curl") (Some (lit "self.get_output_path"))
    (Some (lit "my_should_extract")) None None
    (Some [lit "-L"]) (Some [lit "-s"]) (Some [lit "--head"]).

Definition curl : Extractor.BaseExtractor :=
  Extractor.mkExtractor (lit "curl") (lit "curl")
    (Extractor.HBool true) (Extractor.HBool false)
    (Extractor.HName (lit "self.extract")) (Extractor.HName (lit "self.exec"))
    [lit "-L"] [lit "-s"] (Some [lit "--head"]).

(** Two settings objects, the Django settings at 0 and a second one at 1,
    and two extractor objects: wget at 10, registered in both by plugin
    'a', and curl at 11, not registered. *)
Definition two_registries : Extractor.Memory :=
  Extractor.mkMemory
    {[ 0 := {[ lit "wget" := 10 ]}; 1 := {[ lit "wget" := 10 ]} ]}
    {[ 10 := Extractor.mkObject wget (Some (lit "a"));
       11 := Extractor.mkObject curl None ]}.

(** What the directory 'wget' holds after a run. *)
Definition wget_output_fs : FS :=
  mk_fs [ (lit "wget", lit "*.*", lit "index.html") ] (fun _ _ => None).

(** Every companion field set, no attribute name. *)
Definition ldap_without_username_attr : Ldap.LdapConfig :=
  Ldap.mkLdapConfig true (Some (lit "ldap://h")) (Some (lit "cn=a")) (Some (lit "pw"))
    (Some (lit "ou=u")) (Some (lit "(uid=x)")) false None None None None.

Definition ldap_with_username_attr : Ldap.LdapConfig :=
  Ldap.mkLdapConfig true (Some (lit "ldap://h")) (Some (lit "cn=a")) (Some (lit "pw"))
    (Some (lit "ou=u")) (Some (lit "(active=1)")) false (Some (lit "uid")) None None None.

(** The LDAP fields with only the feature flag set. *)
Definition ldap_enabled_only : Ldap.LdapConfig :=
  Ldap.mkLdapConfig true None None None None None false None None None None.

Definition ldap_complete : Ldap.LdapConfig :=
  Ldap.mkLdapConfig true (Some (lit "ldap://h")) (Some (lit "cn=a")) (Some (lit "pw"))
    (Some (lit "ou=u")) (Some (lit "(uid=x)")) false None None None None.

End Scenario.

(* ===================================================================== *)
(** ** Properties *)
(* ===================================================================== *)

Module PySpec.
Import Py Reference.

(** *** strip *)

Lemma lstrip_cases s :
  lstrip s = [] \/ exists c t, lstrip s = c :: t /\ isspace c = false.
Proof.
  induction s as [|a s IH]; simpl; [left; reflexivity|].
  destruct (isspace a) eqn:E; [exact IH|]. right. eauto.
Qed.

Lemma lstrip_snoc u c :
  isspace c = false -> exists u', lstrip (u ++ [c]) = u' ++ [c].
Proof.
  intros Hc. induction u as [|a u IH]; simpl.
  - rewrite Hc. exists []. reflexivity.
  - destruct (isspace a); [exact IH|]. exists (a :: u). reflexivity.
Qed.

Lemma rstrip_cases s :
  rstrip s = [] \/ exists t c, rstrip s = t ++ [c] /\ isspace c = false.
Proof.
  unfold rstrip. destruct (lstrip_cases (rev s)) as [->|(c & t & -> & Hc)].
  - left; reflexivity.
  - right. exists (rev t), c. split; [reflexivity|exact Hc].
Qed.

Lemma strip_cases s :
  strip s = [] \/ exists t c, strip s = t ++ [c] /\ isspace c = false.
Proof.
  unfold strip. destruct (rstrip_cases s) as [->|(t & c & -> & Hc)].
  - left; reflexivity.
  - right. destruct (lstrip_snoc t c Hc) as [u' ->]. eauto.
Qed.

(** *** split *)

Lemma split_from_nonempty sep k s : split_from sep k s <> [].
Proof.
  revert k. induction s as [|a s IH]; intros k; simpl; [discriminate|].
  destruct k; [|apply IH].
  destruct (startswith sep (a :: s)); [discriminate|].
  destruct (split_from sep 0 s); discriminate.
Qed.

Lemma split_newline_cons a s :
  split [NL] (a :: s) =
    if NL =? a then [] :: split [NL] s
    else match split [NL] s with
         | l :: ls => (a :: l) :: ls
         | [] => [[a]]
         end.
Proof.
  unfold split. cbn [split_from startswith length Nat.pred].
  rewrite andb_true_r. destruct (NL =? a); reflexivity.
Qed.

Lemma last_item_cons x y ys : last_item (x :: y :: ys) = last_item (y :: ys).
Proof. reflexivity. Qed.

(** The last line of a text that ends in a character other than the
    newline ends in that character. *)
Lemma last_line_snoc s c :
  c <> NL -> exists l, last_item (split [NL] (s ++ [c])) = l ++ [c].
Proof.
  intros Hc. induction s as [|a s IH].
  - simpl. rewrite split_newline_cons.
    destruct (N.eqb_spec NL c); [congruence|]. exists []. reflexivity.
  - destruct IH as [l IH]. change ((a :: s) ++ [c]) with (a :: (s ++ [c])).
    rewrite split_newline_cons.
    pose proof (split_from_nonempty [NL] 0 (s ++ [c])) as Hne.
    fold (split [NL] (s ++ [c])) in Hne.
    destruct (split [NL] (s ++ [c])) as [|l0 ls] eqn:E; [congruence|].
    destruct (NL =? a).
    + rewrite last_item_cons. eauto.
    + destruct ls as [|l1 ls].
      * unfold last_item in *. simpl in *. subst l0. exists (a :: l). reflexivity.
      * rewrite last_item_cons. rewrite last_item_cons in IH. eauto.
Qed.

Lemma last_filter_keeps {A} (P : A -> Prop) `{forall x, Decision (P x)} (l : list A) x :
  last l = Some x -> P x -> last (filter P l) = Some x.
Proof.
  intros Hl HP. apply last_Some in Hl. destruct Hl as [l' ->].
  rewrite filter_app. rewrite filter_cons_True by exact HP.
  rewrite filter_nil. apply last_snoc.
Qed.

Lemma isspace_NL : isspace NL = true.
Proof. reflexivity. Qed.

(** The last line of a stripped text is its last non-empty line, and is
    empty only when the stripped text is. *)
Lemma last_line_strip s :
  last_item (split [NL] (strip s)) =
  default [] (Reference.last_nonempty_line (strip s)).
Proof.
  unfold Reference.last_nonempty_line.
  destruct (strip_cases s) as [->|(t & c & -> & Hc)]; [reflexivity|].
  assert (c <> NL) as Hnl by (intros ->; rewrite isspace_NL in Hc; discriminate).
  destruct (last_line_snoc t c Hnl) as [l Hl].
  unfold last_item in *.
  destruct (last (split [NL] (t ++ [c]))) as [x|] eqn:E.
  - simpl in Hl. subst x.
    rewrite (last_filter_keeps _ _ (l ++ [c]) E); [reflexivity|].
    destruct l; discriminate.
  - apply last_None in E. exfalso. exact (split_from_nonempty _ _ _ E).
Qed.

(** *** The order of paths and [sorted] *)

Lemma str_leb_refl a : str_leb a a = true.
Proof.
  induction a as [|x a IH]; simpl; [reflexivity|].
  rewrite N.eqb_refl, IH. apply orb_true_r.
Qed.

Lemma str_leb_total a b : str_leb a b = true \/ str_leb b a = true.
Proof.
  revert b. induction a as [|x a IH]; intros [|y b]; simpl; auto.
  destruct (N.ltb_spec x y); [auto|].
  destruct (N.ltb_spec y x); [auto|].
  assert (x = y) as -> by lia. rewrite N.eqb_refl. simpl. apply IH.
Qed.

Lemma str_leb_antisym a b : str_leb a b = true -> str_leb b a = true -> a = b.
Proof.
  revert b. induction a as [|x a IH]; intros [|y b]; simpl; try discriminate; auto.
  destruct (N.ltb_spec x y), (N.ltb_spec y x); simpl; try lia;
    destruct (N.eqb_spec x y), (N.eqb_spec y x); simpl; try lia; try discriminate.
  intros Hab Hba. subst. f_equal. apply IH; assumption.
Qed.

Lemma str_leb_trans a b c :
  str_leb a b = true -> str_leb b c = true -> str_leb a c = true.
Proof.
  revert b c. induction a as [|x a IH]; intros [|y b] [|z c]; simpl; try discriminate; auto.
  destruct (N.ltb_spec x y), (N.ltb_spec y z), (N.ltb_spec x z); simpl;
    try reflexivity; try lia;
    destruct (N.eqb_spec x y), (N.eqb_spec y z), (N.eqb_spec x z); simpl;
    try lia; try discriminate.
  apply IH.
Qed.

Lemma parts_leb_refl a : parts_leb a a = true.
Proof.
  induction a as [|x a IH]; simpl; [reflexivity|].
  unfold str_eqb. rewrite bool_decide_eq_true_2 by reflexivity. exact IH.
Qed.

Lemma parts_leb_total a b : parts_leb a b = true \/ parts_leb b a = true.
Proof.
  revert b. induction a as [|x a IH]; intros [|y b]; simpl; auto.
  unfold str_eqb. repeat case_bool_decide; subst; try congruence.
  - apply IH.
  - apply str_leb_total.
Qed.

Lemma parts_leb_trans a b c :
  parts_leb a b = true -> parts_leb b c = true -> parts_leb a c = true.
Proof.
  revert b c. induction a as [|x a IH]; intros [|y b] [|z c]; simpl; try discriminate; auto.
  unfold str_eqb. repeat case_bool_decide; subst; try congruence.
  - apply IH.
  - intros Hxy Hyx. exfalso. pose proof (str_leb_antisym _ _ Hxy Hyx). congruence.
  - apply str_leb_trans.
Qed.

Lemma path_leb_refl p : path_leb p p = true.
Proof. apply parts_leb_refl. Qed.

Lemma path_leb_total p q : path_leb p q = true \/ path_leb q p = true.
Proof. apply parts_leb_total. Qed.

Lemma path_leb_trans p q r :
  path_leb p q = true -> path_leb q r = true -> path_leb p r = true.
Proof. apply parts_leb_trans. Qed.

Lemma insert_sorted_Forall (Q : Path -> Prop) p xs :
  Q p -> Forall Q xs -> Forall Q (insert_sorted p xs).
Proof.
  intros Hp Hxs. induction Hxs as [|q xs Hq Hxs IH]; simpl; [auto|].
  destruct (path_leb p q); auto.
Qed.

Lemma insert_sorted_ordered p xs : ordered xs -> ordered (insert_sorted p xs).
Proof.
  unfold ordered. induction 1 as [|q xs Hs IH Hq]; simpl.
  - repeat constructor.
  - destruct (path_leb p q) eqn:Hpq.
    + constructor; [constructor; assumption|].
      constructor; [exact Hpq|].
      eapply Forall_impl; [exact Hq|]. intros r Hr. exact (path_leb_trans _ _ _ Hpq Hr).
    + constructor; [exact IH|].
      apply insert_sorted_Forall; [|exact Hq].
      destruct (path_leb_total p q) as [H|H]; [congruence|exact H].
Qed.

Lemma sorted_ordered xs : ordered (sorted xs).
Proof.
  induction xs as [|p xs IH]; simpl; [constructor|].
  apply insert_sorted_ordered. exact IH.
Qed.

Lemma filter_ordered (Q : Path -> Prop) `{forall p, Decision (Q p)} l :
  ordered l -> ordered (filter Q l).
Proof.
  unfold ordered. induction 1 as [|q xs Hs IH Hq]; [constructor|].
  rewrite filter_cons. case_decide; [|exact IH].
  constructor; [exact IH|].
  apply Forall_forall. intros r Hr. apply list_elem_of_filter in Hr.
  rewrite Forall_forall in Hq. apply Hq. tauto.
Qed.

(** The last path of an ordered list is above every path of the list. *)
Lemma ordered_last l x :
  ordered l -> last l = Some x -> Forall (fun q => precedes q x) l.
Proof.
  unfold ordered. induction 1 as [|q xs Hs IH Hq]; intros Hl; [constructor|].
  destruct xs as [|y ys].
  - injection Hl as ->. repeat constructor. apply path_leb_refl.
  - change (last (y :: ys) = Some x) in Hl. constructor; [|exact (IH Hl)].
    rewrite Forall_forall in Hq. apply Hq. apply last_Some_elem_of. exact Hl.
Qed.

End PySpec.

Module ProcSpec.
Import Py Proc.

Section Rules.
Context (P : gmap str Path -> Prop) (E : exn -> Prop).

Lemma keeps_ret {A : Type} (a : A) : keeps P E (ret a).
Proof. intros w r w' [= <- <-] HP. split; [assumption|discriminate]. Qed.

Lemma keeps_raise {A : Type} (e : exn) : E e -> keeps P E (@raise A e).
Proof. intros He w r w' [= <- <-] HP. split; [assumption|]. intros ? [= <-]. assumption. Qed.

Lemma keeps_bind {A B : Type} (c : M A) (k : A -> M B) :
  keeps P E c -> (forall a, keeps P E (k a)) -> keeps P E (bind c k).
Proof.
  intros Hc Hk w r w'. unfold bind.
  destruct (c w) as [[a|e] w1] eqn:Hcw.
  - intros Hka HP. destruct (Hc w _ _ Hcw HP) as [HP1 _]. exact (Hk a w1 r w' Hka HP1).
  - intros [= <- <-] HP. destruct (Hc w _ _ Hcw HP) as [HP1 He].
    split; [assumption|]. intros e0 [= <-]. apply He. reflexivity.
Qed.

Lemma keeps_get : keeps P E get.
Proof. intros w r w' [= <- <-] HP. split; [assumption|discriminate]. Qed.

Lemma keeps_modify (f : World -> World) :
  (forall w, P (browser_abspaths w) -> P (browser_abspaths (f w))) ->
  keeps P E (modify f).
Proof. intros Hf w r w' [= <- <-] HP. split; [auto|discriminate]. Qed.

Lemma keeps_assert cond msg :
  (cond = false -> E (AssertionError msg)) -> keeps P E (assert cond msg).
Proof.
  intros Hc. unfold assert. destruct cond; [apply keeps_ret|apply keeps_raise; auto].
Qed.

Lemma keeps_print s : keeps P E (print s).
Proof. apply keeps_modify. auto. Qed.

Lemma keeps_ask {A : Type} q (answer : FS -> A) : keeps P E (ask q answer).
Proof. intros w r w' [= <- <-] HP. split; [assumption|discriminate]. Qed.

Lemma keeps_set_PATH p : keeps P E (modify (set_PATH p)).
Proof. apply keeps_modify. auto. Qed.

Lemma keeps_list_of g : keeps P E (list_of g).
Proof. apply keeps_ask. Qed.

End Rules.

(** A computation with no write to the cache leaves it as it was. *)
Lemma keeps_same_cache {A : Type} (c : M A) w r w' :
  (forall m, keeps (fun m' => m' = m) (fun _ => True) c) ->
  c w = (r, w') -> browser_abspaths w' = browser_abspaths w.
Proof. intros Hk Hc. exact (proj1 (Hk _ w r w' Hc eq_refl)). Qed.

End ProcSpec.

Module ExtractorSpec.
Import Py Proc Extractor.

(** *** should_extract *)

Lemma should_extract_const self snapshot w :
  should_extract self snapshot w = (Ok false, w).
Proof. reflexivity. Qed.

(** C1, at a directory that holds nothing: the scan of the output directory
    of the wget extractor yields no entry, and [should_extract] answers
    False all the same, without reading the directory. *)
Theorem should_extract_empty_dir :
  let w := Scenario.fresh Scenario.empty_fs in
  let dir := get_output_path Scenario.wget Scenario.example_url in
  fst (list_of (Path_glob dir (lit "*.*")) w) = Ok []
  /\ should_extract Scenario.wget Scenario.example_url w = (Ok false, w).
Proof. split; reflexivity. Qed.

(** *** construction *)

Lemma no_empty_args_ok l l' :
  no_empty_args l = Ok l' -> l' = l /\ Forall (fun x => x <> []) l.
Proof.
  unfold no_empty_args. destruct (forallb _ l) eqn:E; [|discriminate].
  intros [= <-]. split; [reflexivity|].
  apply Forall_forall. intros x Hx.
  rewrite forallb_forall in E. apply list_elem_of_In in Hx.
  specialize (E x Hx). destruct x; [discriminate|congruence].
Qed.

Lemma no_empty_args_raises l :
  [] ∈ l -> exists e, no_empty_args l = Raise e.
Proof.
  intros Hin. unfold no_empty_args.
  destruct (forallb _ l) eqn:E; [|eauto].
  rewrite forallb_forall in E. apply list_elem_of_In in Hin.
  specialize (E [] Hin). discriminate.
Qed.

Lemma CmdArgsList_ok_nonempty o :
  CmdArgsList_ok o = true -> Forall (fun x => x <> []) (default [] o).
Proof.
  destruct o as [l|]; simpl; [|constructor].
  destruct (no_empty_args l) eqn:E; [|discriminate].
  intros _. apply no_empty_args_ok in E. tauto.
Qed.

Lemma CmdArgsList_ok_empty l :
  [] ∈ l -> CmdArgsList_ok (Some l) = false.
Proof.
  intros Hin. simpl. destruct (no_empty_args_raises l Hin) as [e ->]. reflexivity.
Qed.

Lemma field_errors_nil h kw :
  field_errors h kw = [] ->
  CmdArgsList_ok (kw_default_args kw) = true
  /\ CmdArgsList_ok (kw_extra_args kw) = true
  /\ CmdArgsList_ok (kw_args kw) = true.
Proof.
  unfold field_errors.
  destruct (BinName h _), (CmdArgsList_ok (kw_default_args kw)),
    (CmdArgsList_ok (kw_extra_args kw)), (CmdArgsList_ok (kw_args kw));
    simpl; intros; try discriminate; auto.
Qed.

(** C2: a constructed extractor has a materialized argument list, none of
    whose elements is the empty string; and construction raises the
    validation error as soon as the default, the extra or the explicit
    argument list handed in contains an empty string. *)
Theorem construct_args_nonempty h kw :
  (forall e, construct h kw = Ok e ->
     exists a, args e = Some a /\ Forall (fun x => x <> []) a)
  /\ (forall l, kw_default_args kw = Some l \/ kw_extra_args kw = Some l
                \/ kw_args kw = Some l ->
       [] ∈ l -> exists errs, construct h kw = Raise (ValidationError errs)).
Proof.
  split.
  - intros e. unfold construct.
    destruct (field_errors h kw) eqn:E; [|discriminate].
    apply field_errors_nil in E. destruct E as (Hd & Hx & Ha).
    intros [= <-]. unfold validate_model. simpl.
    destruct (kw_args kw) as [a|] eqn:Ea; simpl.
    + exists a. split; [reflexivity|]. exact (CmdArgsList_ok_nonempty (Some a) Ha).
    + eexists. split; [reflexivity|].
      apply Forall_app. split; apply CmdArgsList_ok_nonempty; assumption.
  - intros l Hl Hin. unfold construct.
    destruct (field_errors h kw) eqn:E; [|eauto].
    apply field_errors_nil in E. destruct E as (Hd & Hx & Ha).
    pose proof (CmdArgsList_ok_empty l Hin) as Hbad.
    destruct Hl as [Hl|[Hl|Hl]]; rewrite Hl in *; congruence.
Qed.

Lemma construct_args_nonempty_witness :
  (exists a, args Scenario.wget = Some a /\ Forall (fun x => x <> []) a)
  /\ (exists errs,
        construct Scenario.linux
          (mkKwargs (lit "wget") (lit "wget") None None None None
                    None (Some [lit "-q"; []]) None)
        = Raise (ValidationError errs)).
Proof.
  split.
  - apply (proj1 (construct_args_nonempty Scenario.linux Scenario.wget_kwargs)).
    reflexivity.
  - apply (proj2 (construct_args_nonempty Scenario.linux
                    (mkKwargs (lit "wget") (lit "wget") None None None None
                              None (Some [lit "-q"; []]) None))
             [lit "-q"; []]).
    + right; left; reflexivity.
    + apply list_elem_of_In. right; left; reflexivity.
Defined.

(** *** extract *)

Lemma extract_runs h self url w b proc f' out err :
  BINARIES w !! binary self = Some b ->
  binary_exec h (fs w) b (command self url) (get_output_path self url) = (Returned proc, f') ->
  decode (stdout proc) = Some out ->
  decode (stderr proc) = Some err ->
  extract h self url [] w =
    (Ok {| status := if (returncode proc =? 0)%Z then "succeeded" else "failed";
           output := last_item (split [NL] (strip out));
           output_files :=
             map (below (get_output_path self url))
                 (fs_glob f' (get_output_path self url) (lit "*.*"));
           res_stdout := strip out;
           res_stderr := strip err;
           res_returncode := returncode proc |},
     log (QGlob (get_output_path self url) (lit "*.*")) (Reference.after_extract self url b f' w)).
Proof.
  intros Hb Hexec Hout Herr.
  unfold extract, exec, bind, get, ret, decode_or_raise, list_of, glob_list, ask.
  simpl. rewrite Hb, Hexec. simpl. rewrite Hout. simpl. rewrite Herr. reflexivity.
Qed.

Lemma extract_returns_inv h self url kw w r w' :
  extract h self url kw w = (Ok r, w') ->
  kw = [] /\
  exists b proc f' out err,
    BINARIES w !! binary self = Some b
    /\ binary_exec h (fs w) b (command self url) (get_output_path self url) = (Returned proc, f')
    /\ decode (stdout proc) = Some out
    /\ decode (stderr proc) = Some err.
Proof.
  unfold extract, exec, bind, get, ret, raise, decode_or_raise, list_of, glob_list, ask.
  destruct kw; [|discriminate]. simpl.
  destruct (BINARIES w !! binary self) as [b|] eqn:Hb; [|discriminate].
  destruct (binary_exec h (fs w) b (command self url) (get_output_path self url))
    as [[proc|e] f'] eqn:Hexec; [|discriminate]. simpl.
  destruct (decode (stdout proc)) as [out|] eqn:Hout; [|discriminate].
  simpl.
  destruct (decode (stderr proc)) as [err|] eqn:Herr; [|discriminate].
  intros _. split; [reflexivity|]. exists b, proc, f', out, err. auto.
Qed.





(** C8 as stated fails: for a stdout of 'b' followed by a space and a
    newline, the last non-empty line is 'b' with its space, and the result
    holds 'b' alone. *)
Lemma extract_output_trailing_space :
  exists r w',
    extract (Scenario.linux_running Scenario.trailing_space) Scenario.wget
      Scenario.example_url [] (Scenario.fresh Scenario.empty_fs) = (Ok r, w')
    /\ decode (stdout Scenario.trailing_space) = Some (lit "b " ++ [NL])
    /\ Reference.last_nonempty_line (lit "b " ++ [NL]) = Some (lit "b ")
    /\ output r = lit "b"
    /\ Some (output r) <> Reference.last_nonempty_line (lit "b " ++ [NL]).
Proof.
  eexists. eexists. split.
  - exact (extract_runs (Scenario.linux_running Scenario.trailing_space) Scenario.wget
             Scenario.example_url (Scenario.fresh Scenario.empty_fs)
             (BinaryRef (lit "wget")) Scenario.trailing_space Scenario.empty_fs
             (lit "b " ++ [NL]) [] eq_refl eq_refl eq_refl eq_refl).
  - repeat split; try reflexivity. discriminate.
Qed.

(** C8, amended: whenever [extract] returns, the output field is the last
    non-empty line of the decoded stdout stripped of leading and trailing
    whitespace, and the empty string when the stripped stdout has no line
    left. *)
Theorem extract_output_last_line h self url kw w r w' :
  extract h self url kw w = (Ok r, w') ->
  exists b proc f' out,
    BINARIES w !! binary self = Some b
    /\ binary_exec h (fs w) b (command self url) (get_output_path self url) = (Returned proc, f')
    /\ decode (stdout proc) = Some out
    /\ output r = default [] (Reference.last_nonempty_line (strip out)).
Proof.
  intros Hrun.
  destruct (extract_returns_inv h self url kw w r w' Hrun)
    as (-> & b & proc & f' & out & err & Hb & Hexec & Hout & Herr).
  rewrite (extract_runs h self url w b proc f' out err Hb Hexec Hout Herr) in Hrun.
  injection Hrun as <- _.
  exists b, proc, f', out. repeat split; try assumption.
  simpl. apply PySpec.last_line_strip.
Qed.

Lemma extract_output_last_line_witness :
  exists b proc f' out,
    BINARIES (Scenario.fresh Scenario.empty_fs) !! binary Scenario.wget = Some b
    /\ binary_exec (Scenario.linux_running Scenario.trailing_space)
         Scenario.empty_fs b (command Scenario.wget Scenario.example_url)
         (get_output_path Scenario.wget Scenario.example_url) = (Returned proc, f')
    /\ decode (stdout proc) = Some out
    /\ lit "b" = default [] (Reference.last_nonempty_line (strip out)).
Proof.
  exact (extract_output_last_line (Scenario.linux_running Scenario.trailing_space)
           Scenario.wget Scenario.example_url [] (Scenario.fresh Scenario.empty_fs)
           _ _ eq_refl).
Defined.

End ExtractorSpec.

Module LdapSpec.
Import Py Proc Ldap.

Lemma validate_disabled h fields w :
  LDAP_ENABLED fields = false ->
  validate_ldap_config h fields w = (Ok fields, w).
Proof.
  intros E. unfold validate_ldap_config, bind, ret. rewrite E. simpl.
  rewrite E. reflexivity.
Qed.

Lemma validate_without_packages h fields w :
  LDAP_ENABLED fields = true -> LDAP_LIB h = None ->
  validate_ldap_config h fields w =
    (Ok (set_LDAP_ENABLED false fields), add_err missing_packages_warning w).
Proof.
  intros E L. unfold validate_ldap_config, bind, ret, modify. rewrite E, L. reflexivity.
Qed.

Lemma validate_with_packages h fields w :
  LDAP_ENABLED fields = true -> LDAP_LIB h <> None ->
  validate_ldap_config h fields w =
    if companions_set fields then (Ok fields, w)
    else (Raise (AssertionError "LDAP_* config options must all be set if LDAP_ENABLED=True"), w).
Proof.
  intros E L. unfold validate_ldap_config, bind, ret, modify, assert, raise.
  rewrite E. destruct (LDAP_LIB h); [|congruence]. simpl. rewrite E.
  destruct (companions_set fields); reflexivity.
Qed.

(** C4 as stated fails: with the LDAP packages installed, the feature
    enabled and no companion field set, construction raises; nothing is
    downgraded and no warning is written. *)
Lemma construct_enabled_incomplete_fails :
  LDAP_ENABLED Scenario.ldap_enabled_only = true
  /\ companions_set Scenario.ldap_enabled_only = false
  /\ construct Scenario.linux Scenario.ldap_enabled_only (Scenario.fresh Scenario.empty_fs)
     = (Raise (ValidationError ["LdapConfig"%string]), Scenario.fresh Scenario.empty_fs).
Proof. repeat split. Qed.

(** C4, amended: when LDAP is enabled and the LDAP packages are not
    installed, construction succeeds with the feature downgraded to
    disabled and a warning written to stderr, whatever the companion fields
    hold; when LDAP is enabled, the packages are installed and one of the
    five companion fields is unset or empty, construction fails; in every
    other case construction returns the fields as given. *)
Theorem construct_cases h fields w :
  (LDAP_ENABLED fields = true -> LDAP_LIB h = None ->
     construct h fields w =
       (Ok (set_LDAP_ENABLED false fields), add_err missing_packages_warning w))
  /\ (LDAP_ENABLED fields = true -> LDAP_LIB h <> None ->
      companions_set fields = false ->
      construct h fields w = (Raise (ValidationError ["LdapConfig"%string]), w))
  /\ (LDAP_ENABLED fields = true -> LDAP_LIB h <> None ->
      companions_set fields = true ->
      construct h fields w = (Ok fields, w))
  /\ (LDAP_ENABLED fields = false -> construct h fields w = (Ok fields, w)).
Proof.
  unfold construct. repeat split.
  - intros E L. rewrite validate_without_packages by assumption. reflexivity.
  - intros E L C. rewrite validate_with_packages, C by assumption. reflexivity.
  - intros E L C. rewrite validate_with_packages, C by assumption. reflexivity.
  - intros E. rewrite validate_disabled by assumption. reflexivity.
Qed.

Lemma construct_cases_witness :
  construct Scenario.linux_without_ldap Scenario.ldap_enabled_only
    (Scenario.fresh Scenario.empty_fs)
  = (Ok (set_LDAP_ENABLED false Scenario.ldap_enabled_only),
     add_err missing_packages_warning (Scenario.fresh Scenario.empty_fs))
  /\ construct Scenario.linux Scenario.ldap_enabled_only (Scenario.fresh Scenario.empty_fs)
     = (Raise (ValidationError ["LdapConfig"%string]), Scenario.fresh Scenario.empty_fs)
  /\ construct Scenario.linux Scenario.ldap_complete (Scenario.fresh Scenario.empty_fs)
     = (Ok Scenario.ldap_complete, Scenario.fresh Scenario.empty_fs)
  /\ construct Scenario.linux (set_LDAP_ENABLED false Scenario.ldap_enabled_only)
       (Scenario.fresh Scenario.empty_fs)
     = (Ok (set_LDAP_ENABLED false Scenario.ldap_enabled_only),
        Scenario.fresh Scenario.empty_fs).
Proof.
  split; [|split; [|split]].
  - apply (proj1 (construct_cases Scenario.linux_without_ldap Scenario.ldap_enabled_only
                    (Scenario.fresh Scenario.empty_fs))); reflexivity.
  - apply (proj1 (proj2 (construct_cases Scenario.linux Scenario.ldap_enabled_only
                           (Scenario.fresh Scenario.empty_fs))));
      [reflexivity|discriminate|reflexivity].
  - apply (proj1 (proj2 (proj2 (construct_cases Scenario.linux Scenario.ldap_complete
                                  (Scenario.fresh Scenario.empty_fs)))));
      [reflexivity|discriminate|reflexivity].
  - apply (proj2 (proj2 (proj2 (construct_cases Scenario.linux
                                  (set_LDAP_ENABLED false Scenario.ldap_enabled_only)
                                  (Scenario.fresh Scenario.empty_fs))))); reflexivity.
Defined.

(** C10: the backend list is the model backend followed by the LDAP
    backend, for every valuation of the fields, the feature flag cleared
    included. *)
Theorem authentication_backends_fixed self :
  AUTHENTICATION_BACKENDS self =
    [ "django.contrib.auth.backends.ModelBackend"%string;
      "django_auth_ldap.backend.LDAPBackend"%string ]
  /\ AUTHENTICATION_BACKENDS (set_LDAP_ENABLED false self) = AUTHENTICATION_BACKENDS self
  /\ length (AUTHENTICATION_BACKENDS self) = 2%nat.
Proof. repeat split. Qed.

End LdapSpec.

Module PlaywrightSpec.
Import Py Proc Playwright ProcSpec.

Section Frames.
Context (h : Host) (P : gmap str Path -> Prop) (E : exn -> Prop).

Hypothesis E_foreign : forall code, E (Foreign code).
Hypothesis E_runtime : E RuntimeError.
Hypothesis E_oserror : E OSError.

Lemma keeps_expanduser p : keeps P E (expanduser h p).
Proof.
  unfold expanduser. destruct (anchor p); [|apply keeps_ret].
  destruct (parts p); [apply keeps_ret|].
  destruct (str_eqb _ _); [|apply keeps_ret].
  destruct (home h); [apply keeps_ret|apply keeps_raise; assumption].
Qed.

Lemma keeps_browsers_dir : keeps P E (playwright_browsers_dir h).
Proof.
  unfold playwright_browsers_dir. apply keeps_bind.
  - destruct (opt_str_truthy _); [apply keeps_ask|apply keeps_ret].
  - intros [|]; [apply keeps_ret|].
    destruct (str_eqb _ _); apply keeps_expanduser.
Qed.

Lemma keeps_mkdir p : keeps P E (mkdir h p).
Proof.
  intros w r w'. unfold mkdir. destruct (os_mkdir h (fs w) p) as [[|] f'];
    intros [= <- <-] HP; (split; [assumption|]); intros e; [discriminate|].
  intros [= <-]. assumption.
Qed.

Lemma keeps_exec b cmd : keeps P E (exec h b cmd).
Proof.
  intros w r w'. unfold exec. destruct (provider_exec h (fs w) b cmd) as [[proc|code] f'];
    intros [= <- <-] HP; (split; [assumption|]); intros e; [discriminate|].
  intros [= <-]. apply E_foreign.
Qed.

Lemma keeps_installer : keeps P E (INSTALLER_BIN_ABSPATH).
Proof. apply keeps_ask. Qed.

Lemma keeps_installed_browser_bins nm : keeps P E (installed_browser_bins h nm).
Proof.
  unfold installed_browser_bins. destruct (str_eqb (str_lower h _) _).
  - apply keeps_bind; [apply keeps_browsers_dir|intros d].
    apply keeps_bind; [apply keeps_ask|intros found]. apply keeps_ret.
  - apply keeps_bind; [apply keeps_browsers_dir|intros d].
    apply keeps_bind; [apply keeps_ask|intros found]. apply keeps_ret.
Qed.

Lemma keeps_setup :
  E (AssertionError "Pip bin provider not initialized") -> keeps P E (setup h).
Proof.
  intros Hpip. unfold setup.
  apply keeps_bind; [case_bool_decide; [apply keeps_ret|apply keeps_set_PATH]|intros _].
  apply keeps_bind; [apply keeps_ask|intros pip].
  apply keeps_bind; [apply keeps_assert; auto|intros _].
  apply keeps_bind; [apply keeps_browsers_dir|intros _].
  apply keeps_bind; [apply keeps_browsers_dir|intros d].
  apply keeps_mkdir.
Qed.

Lemma keeps_install_deps : keeps P E (install_deps h).
Proof.
  unfold install_deps. destruct (str_eqb _ _); [apply keeps_ret|].
  apply keeps_bind; [apply keeps_installer|intros inst].
  apply keeps_bind; [apply keeps_exec|intros proc].
  destruct (_ =? _)%Z; [apply keeps_ret|].
  apply keeps_bind; [apply keeps_print|intros _]. apply keeps_print.
Qed.

Lemma keeps_install_packages pk :
  (forall rc, E (Exception (install_failed_msg rc pk))) ->
  keeps P E (install_packages h pk).
Proof.
  intros HE. unfold install_packages.
  apply keeps_bind; [apply keeps_installer|intros inst].
  apply keeps_bind; [apply keeps_exec|intros proc].
  destruct (_ =? _)%Z; [apply keeps_ret|].
  apply keeps_bind; [apply keeps_print|intros _].
  apply keeps_bind; [apply keeps_print|intros _].
  apply keeps_raise. apply HE.
Qed.

Lemma keeps_cache_put nm p :
  (forall m, P m -> P (<[nm := p]> m)) -> keeps P E (cache_put nm p).
Proof. intros HP. apply keeps_modify. intros w. simpl. apply HP. Qed.

Lemma keeps_record_installed nm proc :
  (forall m p, P m -> P (<[nm := p]> m)) ->
  keeps P E (record_installed h nm proc).
Proof.
  intros HP. unfold record_installed. destruct (output_lines h _); [apply keeps_ret|].
  apply keeps_bind; [apply keeps_browsers_dir|intros d].
  apply keeps_bind; [apply keeps_browsers_dir|intros d'].
  apply keeps_bind; [apply keeps_ask|intros is_file].
  apply keeps_bind; [destruct is_file; [apply keeps_ask|apply keeps_ret]|intros [|]].
  - apply keeps_cache_put. auto.
  - apply keeps_ret.
Qed.

Lemma keeps_abspath_handler nm :
  (str_eqb nm (lit "chrome") = false -> E (AssertionError abspath_assert_msg)) ->
  (forall m p, P m -> P (<[nm := p]> m)) ->
  keeps P E (default_abspath_handler h nm).
Proof.
  intros Hassert Hput. unfold default_abspath_handler.
  apply keeps_bind; [apply keeps_assert; assumption|intros _].
  apply keeps_bind; [apply keeps_get|intros w0].
  destruct (browser_abspaths w0 !! nm); [apply keeps_ret|].
  apply keeps_bind; [apply keeps_installed_browser_bins|intros bins].
  destruct (last _).
  - apply keeps_bind; [apply keeps_cache_put; auto|intros _]. apply keeps_ret.
  - apply keeps_bind; [apply keeps_ask|intros [p|]]; [|apply keeps_ret].
    apply keeps_bind; [apply keeps_cache_put; auto|intros _]. apply keeps_ret.
Qed.

Lemma keeps_install_handler nm pk :
  E (AssertionError "Pip bin provider not initialized") ->
  (str_eqb nm (lit "chrome") = false -> E (AssertionError install_assert_msg)) ->
  E (Exception not_available_msg) ->
  (forall rc l, E (Exception (install_failed_msg rc l))) ->
  (forall m p, P m -> P (<[nm := p]> m)) ->
  keeps P E (default_install_handler h nm pk).
Proof.
  intros Hpip Hassert Hna Hfail Hput. unfold default_install_handler.
  apply keeps_bind; [apply keeps_setup; assumption|intros _].
  apply keeps_bind; [apply keeps_assert; assumption|intros _].
  apply keeps_bind; [apply keeps_installer|intros inst].
  apply keeps_bind;
    [destruct (some_truthy inst); [apply keeps_ret|apply keeps_raise; assumption]|intros _].
  apply keeps_bind; [apply keeps_install_deps|intros _].
  apply keeps_bind; [apply keeps_install_packages; auto|intros proc].
  apply keeps_bind; [apply keeps_record_installed; auto|intros _].
  apply keeps_ret.
Qed.

End Frames.

(** *** The name precondition *)

Lemma str_eqb_false (a b : str) : a <> b -> str_eqb a b = false.
Proof. intros Hne. unfold str_eqb. apply bool_decide_eq_false. exact Hne. Qed.

Lemma abspath_handler_other_name h nm w :
  nm <> lit "chrome" ->
  default_abspath_handler h nm w = (Raise (AssertionError abspath_assert_msg), w).
Proof.
  intros Hne. unfold default_abspath_handler, bind, assert.
  rewrite (str_eqb_false _ _ Hne). reflexivity.
Qed.

Lemma install_handler_other_name h nm pk w :
  nm <> lit "chrome" ->
  default_install_handler h nm pk w =
    match setup h w with
    | (Ok _, w1) => (Raise (AssertionError install_assert_msg), w1)
    | (Raise e, w1) => (Raise e, w1)
    end.
Proof.
  intros Hne. unfold default_install_handler, bind at 1.
  destruct (setup h w) as [[[]|e] w1]; [|reflexivity].
  unfold bind, assert. rewrite (str_eqb_false _ _ Hne). reflexivity.
Qed.

(** C9 as stated fails for the install handler: on a host where the
    browsers directory cannot be created, the handler called for 'firefox'
    raises the OSError of [setup]; its assertion on the name is not
    reached. *)
Lemma install_other_name_setup_fails :
  fst (default_install_handler Scenario.linux_mkdir_denied (lit "firefox") None
         (Scenario.fresh Scenario.empty_fs))
  = Raise OSError.
Proof. vm_compute. reflexivity. Qed.

(** C9, amended: for every binary name other than 'chrome' the
    path-resolution handler fails its assertion at once and returns
    nothing.  The install handler runs [setup] first: for every other name
    it never returns, it raises what [setup] raises when [setup] fails and
    fails its assertion as soon as [setup] has completed.  For the name
    'chrome' neither handler fails that assertion. *)
Theorem chrome_precondition h bin_name packages w :
  (bin_name <> lit "chrome" ->
     default_abspath_handler h bin_name w = (Raise (AssertionError abspath_assert_msg), w)
     /\ (forall w1, setup h w = (Ok tt, w1) ->
          default_install_handler h bin_name packages w
          = (Raise (AssertionError install_assert_msg), w1))
     /\ (forall e w1, setup h w = (Raise e, w1) ->
          default_install_handler h bin_name packages w = (Raise e, w1))
     /\ (forall v w', default_install_handler h bin_name packages w <> (Ok v, w')))
  /\ (bin_name = lit "chrome" ->
      (forall w', default_abspath_handler h bin_name w
                  <> (Raise (AssertionError abspath_assert_msg), w'))
      /\ (forall w', default_install_handler h bin_name packages w
                     <> (Raise (AssertionError install_assert_msg), w'))).
Proof.
  split.
  - intros Hne. split; [apply abspath_handler_other_name; assumption|].
    split; [|split].
    + intros w1 Hs. rewrite install_handler_other_name, Hs by assumption. reflexivity.
    + intros e w1 Hs. rewrite install_handler_other_name, Hs by assumption. reflexivity.
    + intros v w'. rewrite install_handler_other_name by assumption.
      destruct (setup h w) as [[[]|e] w1]; discriminate.
  - intros ->. split; intros w' Hrun.
    + assert (keeps (fun _ => True) (fun e => e <> AssertionError abspath_assert_msg)
                (default_abspath_handler h (lit "chrome"))) as K
        by (apply keeps_abspath_handler; try discriminate; auto).
      destruct (K w _ w' Hrun I) as [_ He]. exact (He _ eq_refl eq_refl).
    + assert (keeps (fun _ => True) (fun e => e <> AssertionError install_assert_msg)
                (default_install_handler h (lit "chrome") packages)) as K
        by (apply keeps_install_handler; try discriminate; auto).
      destruct (K w _ w' Hrun I) as [_ He]. exact (He _ eq_refl eq_refl).
Qed.

Lemma chrome_precondition_witness :
  (default_abspath_handler Scenario.linux (lit "firefox") (Scenario.fresh Scenario.empty_fs)
   = (Raise (AssertionError abspath_assert_msg), Scenario.fresh Scenario.empty_fs)
   /\ (forall w1, setup Scenario.linux (Scenario.fresh Scenario.empty_fs) = (Ok tt, w1) ->
        default_install_handler Scenario.linux (lit "firefox") None
          (Scenario.fresh Scenario.empty_fs)
        = (Raise (AssertionError install_assert_msg), w1))
   /\ (forall e w1, setup Scenario.linux (Scenario.fresh Scenario.empty_fs) = (Raise e, w1) ->
        default_install_handler Scenario.linux (lit "firefox") None
          (Scenario.fresh Scenario.empty_fs) = (Raise e, w1))
   /\ (forall v w', default_install_handler Scenario.linux (lit "firefox") None
                      (Scenario.fresh Scenario.empty_fs) <> (Ok v, w')))
  /\ (forall w', default_abspath_handler Scenario.linux (lit "chrome")
                   (Scenario.fresh Scenario.empty_fs)
                 <> (Raise (AssertionError abspath_assert_msg), w'))
  /\ default_install_handler Scenario.linux_mkdir_denied (lit "firefox") None
       (Scenario.fresh Scenario.empty_fs)
     = (Raise OSError,
        snd (setup Scenario.linux_mkdir_denied (Scenario.fresh Scenario.empty_fs))).
Proof.
  split; [|split].
  - apply (proj1 (chrome_precondition Scenario.linux (lit "firefox") None
                    (Scenario.fresh Scenario.empty_fs))).
    discriminate.
  - apply (proj2 (chrome_precondition Scenario.linux (lit "chrome") None
                    (Scenario.fresh Scenario.empty_fs)) eq_refl).
  - apply (proj1 (chrome_precondition Scenario.linux_mkdir_denied (lit "firefox") None
                    (Scenario.fresh Scenario.empty_fs)) ltac:(discriminate)).
    vm_compute. reflexivity.
Defined.

(** *** The cache of resolved paths *)

Lemma abspath_handler_hit h w p :
  browser_abspaths w !! lit "chrome" = Some p ->
  default_abspath_handler h (lit "chrome") w = (Ok (Some p), w).
Proof.
  intros Hc. unfold default_abspath_handler, bind, assert, get, ret. simpl.
  rewrite Hc. reflexivity.
Qed.

Lemma abspath_handler_populates h w p w1 :
  default_abspath_handler h (lit "chrome") w = (Ok (Some p), w1) ->
  browser_abspaths w1 !! lit "chrome" = Some p.
Proof.
  unfold default_abspath_handler, bind, assert, get, ret. simpl.
  destruct (browser_abspaths w !! lit "chrome") as [p0|] eqn:Hc.
  - intros [= <- <-]. exact Hc.
  - destruct (installed_browser_bins h (lit "*") w) as [[bins|e] w2]; [|discriminate].
    destruct (last _) as [newest|].
    + unfold cache_put, modify. intros [= <- <-]. simpl. apply lookup_insert_eq.
    + unfold bin_abspath, ask.
      destruct (fs_which (fs w2) _ _) as [q|]; [|discriminate].
      unfold cache_put, modify. intros [= <- <-]. simpl. apply lookup_insert_eq.
Qed.

Lemma abspath_handler_keeps_entry h nm w r w' p :
  browser_abspaths w !! lit "chrome" = Some p ->
  default_abspath_handler h nm w = (r, w') ->
  browser_abspaths w' !! lit "chrome" = Some p.
Proof.
  intros Hc. destruct (decide (nm = lit "chrome")) as [->|Hne].
  - rewrite (abspath_handler_hit h w p Hc). intros [= <- <-]. exact Hc.
  - rewrite (abspath_handler_other_name h nm w Hne). intros [= <- <-]. exact Hc.
Qed.

Lemma install_handler_keeps_populated h nm pk w r w' :
  is_Some (browser_abspaths w !! lit "chrome") ->
  default_install_handler h nm pk w = (r, w') ->
  is_Some (browser_abspaths w' !! lit "chrome").
Proof.
  intros Hc Hrun.
  assert (keeps (fun m => is_Some (m !! lit "chrome")) (fun _ => True)
            (default_install_handler h nm pk)) as K.
  { apply keeps_install_handler; auto. intros m p Hm.
    rewrite lookup_insert. case_decide; [eauto|assumption]. }
  exact (proj1 (K w r w' Hrun Hc)).
Qed.

(** A lookup that finds nothing stores nothing. *)
Lemma abspath_handler_not_found h w w1 :
  default_abspath_handler h (lit "chrome") w = (Ok None, w1) ->
  browser_abspaths w1 = browser_abspaths w.
Proof.
  unfold default_abspath_handler, bind, assert, get, ret. simpl.
  destruct (browser_abspaths w !! lit "chrome") as [p0|]; [discriminate|].
  destruct (installed_browser_bins h (lit "*") w) as [[bins|e] w2] eqn:Hbins;
    [|discriminate].
  assert (browser_abspaths w2 = browser_abspaths w) as <-.
  { eapply keeps_same_cache; [|exact Hbins].
    intros m. apply keeps_installed_browser_bins. auto. }
  destruct (last _); [discriminate|].
  unfold bin_abspath, ask. destruct (fs_which _ _ _); [discriminate|].
  intros [= <-]. reflexivity.
Qed.

(** C6: when a resolve call for 'chrome' returns a path, the path is in the
    cache; the next resolve call returns the same path and leaves the
    process as it found it (no query is added to the trace), whatever the
    filesystem has become; no later resolve call changes the entry, and an
    install call leaves the entry populated. *)
Theorem resolve_cached h w p w1 :
  default_abspath_handler h (lit "chrome") w = (Ok (Some p), w1) ->
  browser_abspaths w1 !! lit "chrome" = Some p
  /\ (forall w2, browser_abspaths w2 = browser_abspaths w1 ->
       default_abspath_handler h (lit "chrome") w2 = (Ok (Some p), w2))
  /\ (forall nm w2 r w3,
       browser_abspaths w2 !! lit "chrome" = Some p ->
       default_abspath_handler h nm w2 = (r, w3) ->
       browser_abspaths w3 !! lit "chrome" = Some p)
  /\ (forall nm pk w2 r w3,
       is_Some (browser_abspaths w2 !! lit "chrome") ->
       default_install_handler h nm pk w2 = (r, w3) ->
       is_Some (browser_abspaths w3 !! lit "chrome")).
Proof.
  intros Hrun. pose proof (abspath_handler_populates h w p w1 Hrun) as Hc.
  split; [exact Hc|]. split; [|split].
  - intros w2 Hsame. apply abspath_handler_hit. rewrite Hsame. exact Hc.
  - intros nm w2 r w3. apply abspath_handler_keeps_entry.
  - intros nm pk w2 r w3. apply install_handler_keeps_populated.
Qed.

Lemma resolve_cached_witness :
  let w := Scenario.fresh Scenario.linux_cache_fs in
  let w1 := snd (default_abspath_handler Scenario.linux (lit "chrome") w) in
  browser_abspaths w1 !! lit "chrome" = Some Scenario.chromium_1200
  /\ default_abspath_handler Scenario.linux (lit "chrome") (set_fs Scenario.empty_fs w1)
     = (Ok (Some Scenario.chromium_1200), set_fs Scenario.empty_fs w1).
Proof.
  intros w w1.
  destruct (resolve_cached Scenario.linux w Scenario.chromium_1200 w1)
    as (H1 & H2 & _).
  - vm_compute. reflexivity.
  - split; [exact H1|]. apply H2. reflexivity.
Defined.

(** *** Discovery of installed browsers *)

Lemma keep_browser_bin_filter h l acc :
  fold_left (keep_browser_bin h) l acc = acc ++ filter (Reference.kept_browser_bin h) l.
Proof.
  revert acc. induction l as [|p l IH]; intros acc; simpl.
  - rewrite app_nil_r. reflexivity.
  - rewrite IH, filter_cons.
    destruct (decide (Reference.kept_browser_bin h p)) as [(E1 & E2 & E3)|K];
      unfold keep_browser_bin.
    + rewrite E1, E2, E3, <- app_assoc. reflexivity.
    + destruct (contains (lit "xdg-settings") (str_of p)) eqn:E1; [reflexivity|].
      destruct (contains (lit "ffmpeg") (str_of p)) eqn:E2; [reflexivity|].
      destruct (_ && _) eqn:E3; [|reflexivity].
      exfalso. apply K. unfold Reference.kept_browser_bin. auto.
Qed.

(** What [installed_browser_bins] returns: the sorted matches of the
    platform's pattern below the browsers directory, filtered by the loop
    on every platform but macOS. *)
Lemma installed_browser_bins_inv h nm w bins w' :
  installed_browser_bins h nm w = (Ok bins, w') ->
  Reference.ordered bins
  /\ (str_lower h (platform_system h) <> lit "darwin" ->
      Forall (Reference.kept_browser_bin h) bins).
Proof.
  unfold installed_browser_bins, bind, ret, glob_list, ask.
  destruct (str_eqb (str_lower h (platform_system h)) (lit "darwin")) eqn:Hd;
    destruct (playwright_browsers_dir h w) as [[d|e] w0]; try discriminate;
    intros [= <- <-].
  - split; [apply PySpec.sorted_ordered|].
    intros Hne. apply bool_decide_eq_true in Hd. contradiction.
  - rewrite keep_browser_bin_filter. simpl. split.
    + apply PySpec.filter_ordered. apply PySpec.sorted_ordered.
    + intros _. apply Forall_forall. intros p Hp.
      apply list_elem_of_filter in Hp. tauto.
Qed.

(** C7 as stated fails on macOS: the bundle found below a build directory
    named after ffmpeg is returned, ffmpeg in its path and all. *)
Lemma macos_keeps_ffmpeg_path :
  fst (default_abspath_handler Scenario.macos (lit "chrome")
         (Scenario.fresh Scenario.macos_ffmpeg_fs))
  = Ok (Some Scenario.macos_ffmpeg_bin)
  /\ contains (lit "ffmpeg") (str_of Scenario.macos_ffmpeg_bin) = true.
Proof. split; vm_compute; reflexivity. Qed.

(** C7, amended: on every platform but macOS the installed binaries found
    by the filesystem search contain neither 'ffmpeg' nor 'xdg-settings' in
    their path (on macOS the bundle pattern is searched and nothing is
    excluded); with an empty cache, the resolve call returns the last
    candidate of the sorted list, which is above every other candidate in
    the order of paths; and when there is no candidate it returns what the
    lookup of google-chrome-stable on the search path of the process gives,
    that lookup being its last query. *)
Theorem discovery h w :
  (forall nm bins w0,
     str_lower h (platform_system h) <> lit "darwin" ->
     installed_browser_bins h nm w = (Ok bins, w0) ->
     Forall Reference.no_ancillary_tool bins)
  /\ (forall r w1,
       browser_abspaths w !! lit "chrome" = None ->
       default_abspath_handler h (lit "chrome") w = (Ok r, w1) ->
       exists bins w0,
         installed_browser_bins h (lit "*") w = (Ok bins, w0)
         /\ (forall newest,
               last (Reference.candidates (lit "chrome") bins) = Some newest ->
               r = Some newest
               /\ Forall (fun q => Reference.precedes q newest)
                         (Reference.candidates (lit "chrome") bins))
         /\ (Reference.candidates (lit "chrome") bins = [] ->
             r = fs_which (fs w0) (lit "google-chrome-stable") (env_PATH h)
             /\ trace w1 = trace w0 ++ [QWhich (lit "google-chrome-stable") (env_PATH h)])).
Proof.
  split.
  - intros nm bins w0 Hne Hbins.
    destruct (installed_browser_bins_inv h nm w bins w0 Hbins) as [_ Hkept].
    eapply Forall_impl; [exact (Hkept Hne)|].
    intros p (? & ? & _). split; assumption.
  - intros r w1 Hmiss.
    unfold default_abspath_handler, bind, assert, get, ret. simpl.
    rewrite Hmiss.
    destruct (installed_browser_bins h (lit "*") w) as [[bins|e] w0] eqn:Hbins;
      [|discriminate].
    fold (Reference.candidates (lit "chrome") bins).
    destruct (installed_browser_bins_inv h _ w bins w0 Hbins) as [Hord _].
    intros Hrun. exists bins, w0. split; [reflexivity|]. split.
    + intros newest Hlast. rewrite Hlast in Hrun.
      unfold cache_put, modify in Hrun. injection Hrun as <- _.
      split; [reflexivity|].
      apply PySpec.ordered_last; [|exact Hlast].
      apply PySpec.filter_ordered. exact Hord.
    + intros Hnone. rewrite Hnone in Hrun. simpl in Hrun.
      unfold bin_abspath, ask, cache_put, modify in Hrun.
      destruct (fs_which (fs w0) (lit "google-chrome-stable") (env_PATH h));
        injection Hrun as <- <-; split; reflexivity.
Qed.

Lemma discovery_witness :
  (exists bins w0,
     installed_browser_bins Scenario.linux (lit "*") (Scenario.fresh Scenario.linux_cache_fs)
     = (Ok bins, w0)
     /\ Forall Reference.no_ancillary_tool bins
     /\ last (Reference.candidates (lit "chrome") bins) = Some Scenario.chromium_1200
     /\ Forall (fun q => Reference.precedes q Scenario.chromium_1200)
               (Reference.candidates (lit "chrome") bins))
  /\ (exists bins w0,
       installed_browser_bins Scenario.linux (lit "*")
         (Scenario.fresh Scenario.system_chrome_fs) = (Ok bins, w0)
       /\ Reference.candidates (lit "chrome") bins = []
       /\ Some Scenario.system_chrome
          = fs_which (fs w0) (lit "google-chrome-stable") (env_PATH Scenario.linux)).
Proof.
  split.
  - destruct (discovery Scenario.linux (Scenario.fresh Scenario.linux_cache_fs))
      as [Hex Hsel].
    destruct (Hsel (Some Scenario.chromium_1200)
                (snd (default_abspath_handler Scenario.linux (lit "chrome")
                        (Scenario.fresh Scenario.linux_cache_fs))))
      as (bins & w0 & Hbins & Hlast & _).
    + reflexivity.
    + vm_compute. reflexivity.
    + exists bins, w0. split; [exact Hbins|].
      split; [apply (Hex (lit "*") bins w0); [vm_compute; discriminate|exact Hbins]|].
      assert (last (Reference.candidates (lit "chrome") bins) = Some Scenario.chromium_1200)
        as Hl.
      { vm_compute in Hbins. injection Hbins as <- _. vm_compute. reflexivity. }
      split; [exact Hl|]. exact (proj2 (Hlast _ Hl)).
  - destruct (proj2 (discovery Scenario.linux (Scenario.fresh Scenario.system_chrome_fs))
                (Some Scenario.system_chrome)
                (snd (default_abspath_handler Scenario.linux (lit "chrome")
                        (Scenario.fresh Scenario.system_chrome_fs))))
      as (bins & w0 & Hbins & _ & Hfall).
    + reflexivity.
    + vm_compute. reflexivity.
    + assert (Reference.candidates (lit "chrome") bins = []) as Hnone.
      { vm_compute in Hbins. injection Hbins as <- _. vm_compute. reflexivity. }
      exists bins, w0. split; [exact Hbins|]. split; [exact Hnone|].
      exact (proj1 (Hfall Hnone)).
Defined.

(** *** Installation *)

Lemma bind_run {A B : Type} (c : M A) (k : A -> M B) w a w1 :
  c w = (Ok a, w1) -> bind c k w = k a w1.
Proof. intros Hc. unfold bind. rewrite Hc. reflexivity. Qed.

Lemma install_deps_skipped h w :
  str_lower h (platform_system h) = lit "darwin" ->
  install_deps h w = (Ok tt, w).
Proof. intros Hd. unfold install_deps. rewrite Hd. reflexivity. Qed.

Lemma install_deps_continues h w dproc f2 :
  str_lower h (platform_system h) <> lit "darwin" ->
  provider_exec h (fs w) (fs_playwright (fs w)) [lit "install-deps"] = (Returned dproc, f2) ->
  exists w2,
    install_deps h w = (Ok tt, w2)
    /\ fs w2 = f2
    /\ browser_abspaths w2 = browser_abspaths w
    /\ printed w2 = printed w ++ Reference.failure_log dproc.
Proof.
  intros Hd Hexec. unfold install_deps. rewrite (str_eqb_false _ _ Hd).
  unfold bind, INSTALLER_BIN_ABSPATH, ask, exec, print, modify, ret,
    Reference.failure_log. simpl.
  rewrite Hexec. simpl.
  destruct (returncode dproc =? 0)%Z; eexists; (split; [reflexivity|]); simpl;
    repeat split; try reflexivity.
  - rewrite app_nil_r. reflexivity.
  - rewrite <- app_assoc. reflexivity.
Qed.

Lemma install_packages_run h pk w iproc f3 :
  provider_exec h (fs w) (fs_playwright (fs w)) (lit "install" :: pk) = (Returned iproc, f3) ->
  exists w3,
    install_packages h pk w =
      (if (returncode iproc =? 0)%Z then Ok iproc
       else Raise (Exception (install_failed_msg (returncode iproc) pk)), w3)
    /\ browser_abspaths w3 = browser_abspaths w
    /\ printed w3 = printed w ++ Reference.failure_log iproc.
Proof.
  intros Hexec. unfold install_packages.
  unfold bind, INSTALLER_BIN_ABSPATH, ask, exec, print, modify, ret, raise,
    Reference.failure_log. simpl.
  rewrite Hexec. simpl.
  destruct (returncode iproc =? 0)%Z; eexists; (split; [reflexivity|]); simpl;
    repeat split; try reflexivity.
  - rewrite app_nil_r. reflexivity.
  - rewrite <- app_assoc. reflexivity.
Qed.

Lemma record_installed_nothing h nm proc w :
  output_lines h (stdout proc) = [] -> record_installed h nm proc w = (Ok tt, w).
Proof. intros Hnone. unfold record_installed. rewrite Hnone. reflexivity. Qed.

Lemma setup_same_cache h w r w1 :
  setup h w = (r, w1) -> browser_abspaths w1 = browser_abspaths w.
Proof.
  apply keeps_same_cache. intros m. apply keeps_setup; auto.
Qed.

(** C3 as stated fails: an install that exits with code 0 and names no
    browser binary in its output raises nothing, the handler returns the
    output; and an install that exits with code 1 raises an error made of
    the class name, the exit code and the package list, the same for two
    different captured outputs. *)
Lemma install_raises_less :
  output_lines Scenario.linux (stdout Scenario.installed_silently) = []
  /\ fst (default_install_handler
            (Scenario.linux_installing Scenario.quiet Scenario.installed_silently)
            (lit "chrome") (Some [lit "chromium"]) (Scenario.fresh Scenario.empty_fs))
     = Ok (lit "done")
  /\ fst (default_install_handler
            (Scenario.linux_installing Scenario.quiet Scenario.disk_full)
            (lit "chrome") (Some [lit "chromium"]) (Scenario.fresh Scenario.empty_fs))
     = Raise (Exception (install_failed_msg 1 [lit "chromium"]))
  /\ fst (default_install_handler
            (Scenario.linux_installing Scenario.quiet Scenario.no_network)
            (lit "chrome") (Some [lit "chromium"]) (Scenario.fresh Scenario.empty_fs))
     = Raise (Exception (install_failed_msg 1 [lit "chromium"])).
Proof. repeat split; vm_compute; reflexivity. Qed.

(** C3, amended: once [setup] has completed and the installer is found, the
    dependency sub-step (skipped on macOS) never aborts the install,
    whatever its exit code: it prints its output when the code is not zero
    and the handler goes on to the package install step.  If that step
    exits non-zero the handler prints the captured output and raises an
    error that carries the exit code and the package list.  If it exits
    zero and no line of its output names a browser binary, no error is
    raised: the handler returns the combined stderr and stdout and leaves
    the cache as it was. *)
Theorem install_outcome h w packages w1 dproc iproc f2 f3 :
  let pk := Reference.resolved_packages h (lit "chrome") packages in
  let deps_log :=
    if str_eqb (str_lower h (platform_system h)) (lit "darwin") then []
    else Reference.failure_log dproc in
  setup h w = (Ok tt, w1) ->
  fs_playwright (fs w1) <> None ->
  (str_lower h (platform_system h) = lit "darwin" /\ f2 = fs w1
   \/ str_lower h (platform_system h) <> lit "darwin"
      /\ provider_exec h (fs w1) (fs_playwright (fs w1)) [lit "install-deps"]
         = (Returned dproc, f2)) ->
  provider_exec h f2 (fs_playwright f2) (lit "install" :: pk) = (Returned iproc, f3) ->
  exists r w',
    default_install_handler h (lit "chrome") packages w = (r, w')
    /\ (returncode iproc <> 0%Z ->
        r = Raise (Exception (install_failed_msg (returncode iproc) pk))
        /\ printed w' = printed w1 ++ deps_log
                         ++ [strip (stdout iproc); strip (stderr iproc)])
    /\ (returncode iproc = 0%Z -> output_lines h (stdout iproc) = [] ->
        r = Ok (combined_output iproc)
        /\ printed w' = printed w1 ++ deps_log
        /\ browser_abspaths w' = browser_abspaths w).
Proof.
  intros pk deps_log Hsetup Hinst Hdeps Hinstall.
  pose proof (setup_same_cache h w _ w1 Hsetup) as Hcache1.
  unfold default_install_handler.
  rewrite (bind_run _ _ w tt w1 Hsetup).
  unfold assert. simpl str_eqb. cbn iota.
  rewrite (bind_run _ _ w1 tt w1 eq_refl).
  unfold INSTALLER_BIN_ABSPATH at 1.
  rewrite (bind_run _ _ w1 (fs_playwright (fs w1)) (log (QLoad "playwright") w1) eq_refl).
  destruct (fs_playwright (fs w1)) as [inst|] eqn:Hi; [|congruence].
  simpl some_truthy. cbn iota.
  rewrite (bind_run _ _ _ tt _ eq_refl).
  fold (Reference.resolved_packages h (lit "chrome") packages). fold pk.
  set (wA := log (QLoad "playwright") w1).
  assert (exists w2, install_deps h wA = (Ok tt, w2) /\ fs w2 = f2
                     /\ browser_abspaths w2 = browser_abspaths w1
                     /\ printed w2 = printed w1 ++ deps_log) as (w2 & Hd & Hf2 & Hc2 & Hp2).
  { subst deps_log. destruct Hdeps as [[Hdar ->]|[Hdar Hexec]].
    - exists wA. rewrite (install_deps_skipped h wA Hdar), Hdar. simpl.
      rewrite app_nil_r. auto.
    - rewrite (str_eqb_false _ _ Hdar).
      destruct (install_deps_continues h wA dproc f2 Hdar) as (w2 & ? & ? & ? & ?).
      + simpl. rewrite Hi. exact Hexec.
      + exists w2. auto. }
  rewrite (bind_run _ _ wA tt w2 Hd).
  destruct (install_packages_run h pk w2 iproc f3) as (w3 & Hrun & Hc3 & Hp3).
  { rewrite Hf2. exact Hinstall. }
  unfold Reference.failure_log in Hp3.
  destruct (Z.eqb_spec (returncode iproc) 0) as [Hz|Hnz].
  - rewrite (bind_run _ _ w2 iproc w3 Hrun).
    destruct (record_installed h (lit "chrome") iproc w3) as [r4 w4] eqn:Hrec.
    unfold bind at 1. rewrite Hrec.
    destruct r4 as [[]|e4].
    + eexists. eexists. split; [reflexivity|]. split; [intros; congruence|].
      intros _ Hnone. rewrite (record_installed_nothing h _ iproc w3 Hnone) in Hrec.
      injection Hrec as <-. split; [reflexivity|].
      rewrite Hp3, Hp2, Hc3, Hc2, Hcache1, app_nil_r. auto.
    + eexists. eexists. split; [reflexivity|]. split; [intros; congruence|].
      intros _ Hnone. rewrite (record_installed_nothing h _ iproc w3 Hnone) in Hrec.
      discriminate.
  - unfold bind at 1. rewrite Hrun.
    eexists. eexists. split; [reflexivity|]. split; [|intros; congruence].
    intros _. split; [reflexivity|]. rewrite Hp3, Hp2, <- app_assoc. reflexivity.
Qed.

Lemma install_outcome_witness :
  let h := Scenario.linux_installing Scenario.deps_failed Scenario.installed_silently in
  let w := Scenario.fresh Scenario.empty_fs in
  exists r w',
    default_install_handler h (lit "chrome") (Some [lit "chromium"]) w = (r, w')
    /\ (returncode Scenario.installed_silently <> 0%Z ->
        r = Raise (Exception (install_failed_msg
                                (returncode Scenario.installed_silently)
                                [lit "chromium"]))
        /\ printed w' = printed (snd (setup h w))
                         ++ Reference.failure_log Scenario.deps_failed
                         ++ [strip (stdout Scenario.installed_silently);
                             strip (stderr Scenario.installed_silently)])
    /\ (returncode Scenario.installed_silently = 0%Z ->
        output_lines h (stdout Scenario.installed_silently) = [] ->
        r = Ok (combined_output Scenario.installed_silently)
        /\ printed w' = printed (snd (setup h w))
                         ++ Reference.failure_log Scenario.deps_failed
        /\ browser_abspaths w' = browser_abspaths w).
Proof.
  intros h w.
  apply (install_outcome h w (Some [lit "chromium"]) (snd (setup h w)) Scenario.deps_failed
           Scenario.installed_silently Scenario.empty_fs Scenario.empty_fs).
  - vm_compute. reflexivity.
  - discriminate.
  - right. split; [discriminate|reflexivity].
  - reflexivity.
Defined.

End PlaywrightSpec.

(* ===================================================================== *)
(** ** Further properties *)
(* ===================================================================== *)

Module PyMore.
Import Py Reference.

Lemma lstrip_fixed c t : isspace c = false -> lstrip (c :: t) = c :: t.
Proof. intros Hc. simpl. rewrite Hc. reflexivity. Qed.

Lemma rstrip_fixed t c : isspace c = false -> rstrip (t ++ [c]) = t ++ [c].
Proof.
  intros Hc. unfold rstrip. rewrite rev_app_distr. simpl. rewrite Hc.
  simpl. rewrite rev_involutive. reflexivity.
Qed.

(** A stripped text is empty, or starts and ends with a character that is
    not whitespace. *)
Lemma strip_ends s :
  strip s = []
  \/ (exists c t, strip s = c :: t /\ isspace c = false)
     /\ (exists t c, strip s = t ++ [c] /\ isspace c = false).
Proof.
  destruct (PySpec.strip_cases s) as [E|(t & c & E & Hc)]; [left; exact E|].
  right. split; [|eauto].
  unfold strip in *. destruct (PySpec.lstrip_cases (rstrip s)) as [E0|H]; [|exact H].
  rewrite E0 in E. destruct t; discriminate.
Qed.

Lemma strip_idempotent s : strip (strip s) = strip s.
Proof.
  destruct (strip_ends s) as [->|[(c & t & E1 & Hc) (t' & c' & E2 & Hc')]]; [reflexivity|].
  unfold strip at 1. rewrite E2, (rstrip_fixed t' c' Hc'), <- E2, E1.
  apply lstrip_fixed. exact Hc.
Qed.

(** No line of a text cut at its newlines holds a newline. *)
Lemma split_newline_free s : Forall (fun l => NL ∉ l) (split [NL] s).
Proof.
  induction s as [|a s IH].
  - repeat constructor. apply not_elem_of_nil.
  - rewrite PySpec.split_newline_cons.
    destruct (N.eqb_spec NL a) as [E|E].
    + constructor; [apply not_elem_of_nil|exact IH].
    + destruct (split [NL] s) as [|l ls]; inversion IH; subst.
      * repeat constructor. rewrite elem_of_cons. intros [?|H]; [congruence|].
        exact (not_elem_of_nil _ H).
      * constructor; [|assumption].
        rewrite elem_of_cons. intros [?|?]; [congruence|contradiction].
Qed.

Lemma last_line_newline_free s : NL ∉ last_item (split [NL] s).
Proof.
  unfold last_item. destruct (last (split [NL] s)) as [l|] eqn:E; simpl.
  - pose proof (split_newline_free s) as HF. rewrite Forall_forall in HF.
    apply HF. apply last_Some_elem_of. exact E.
  - apply not_elem_of_nil.
Qed.

(** The last line of a stripped text is empty only if the text is. *)
Lemma last_line_strip_nil s :
  last_item (split [NL] (strip s)) = [] <-> strip s = [].
Proof.
  split.
  - intros Hl. destruct (PySpec.strip_cases s) as [E|(t & c & E & Hc)]; [exact E|].
    assert (c <> NL) as Hnl by (intros ->; discriminate).
    rewrite E in Hl. destruct (PySpec.last_line_snoc t c Hnl) as [l Hl'].
    rewrite Hl in Hl'. destruct l; discriminate.
  - intros ->. reflexivity.
Qed.

(** [sorted] keeps the paths it is given, each as often as it occurs. *)
Lemma insert_sorted_perm p xs : insert_sorted p xs ≡ₚ p :: xs.
Proof.
  induction xs as [|q xs IH]; simpl; [reflexivity|].
  destruct (path_leb p q); [reflexivity|].
  rewrite IH. apply Permutation_swap.
Qed.

Lemma sorted_perm xs : sorted xs ≡ₚ xs.
Proof.
  induction xs as [|p xs IH]; simpl; [reflexivity|].
  rewrite insert_sorted_perm, IH. reflexivity.
Qed.

End PyMore.

Module ExtractorMore.
Import Py Proc Extractor.

(** *** The registry *)

(** X1: [register] writes to the settings object it was handed, or to the
    Django settings when it was handed None.  Afterwards that object's
    registry maps the name of the extractor to the extractor object itself,
    and the object's [_plugin] is the plugin it was registered by, for
    every registry that refers to the object; the other names of the
    registry, the other settings objects and the other extractor objects
    are as before. *)
Theorem register_lookup django self settings plugin m obj EXTRACTORS :
  extractor_objects m !! self = Some obj ->
  settings_objects m !! default django settings = Some EXTRACTORS ->
  exists m' EXTRACTORS',
    register django self settings plugin m = Some m'
    /\ settings_objects m' !! default django settings = Some EXTRACTORS'
    /\ EXTRACTORS' !! name (fields obj) = Some self
    /\ (forall k, k <> name (fields obj) -> EXTRACTORS' !! k = EXTRACTORS !! k)
    /\ (forall s, s <> default django settings ->
         settings_objects m' !! s = settings_objects m !! s)
    /\ extractor_objects m' !! self = Some (mkObject (fields obj) plugin)
    /\ (forall o, o <> self -> extractor_objects m' !! o = extractor_objects m !! o).
Proof.
  intros Hobj Hreg. unfold register. rewrite Hobj, Hreg.
  eexists. eexists. split; [reflexivity|]. simpl.
  split; [apply lookup_insert_eq|].
  split; [apply lookup_insert_eq|].
  split; [intros k Hk; apply lookup_insert_ne; congruence|].
  split; [intros s' Hs; apply lookup_insert_ne; congruence|].
  split; [apply lookup_insert_eq|].
  intros o Ho. apply lookup_insert_ne. congruence.
Qed.

Lemma register_lookup_witness :
  exists m' EXTRACTORS',
    register 0 11 (Some 1) (Some (lit "b")) Scenario.two_registries = Some m'
    /\ settings_objects m' !! 1 = Some EXTRACTORS'
    /\ EXTRACTORS' !! lit "curl" = Some 11
    /\ EXTRACTORS' !! lit "wget" = Some 10
    /\ settings_objects m' !! 0 = Some {[ lit "wget" := 10 ]}
    /\ extractor_objects m' !! 11 = Some (mkObject Scenario.curl (Some (lit "b")))
    /\ extractor_objects m' !! 10 = Some (mkObject Scenario.wget (Some (lit "a"))).
Proof.
  destruct (register_lookup 0 11 (Some 1) (Some (lit "b")) Scenario.two_registries
              (mkObject Scenario.curl None) {[ lit "wget" := 10 ]} eq_refl eq_refl)
    as (m' & E' & Hrun & Hs & Hname & Hother & Hsettings & Hself & Hobjects).
  exists m', E'. split; [exact Hrun|]. split; [exact Hs|]. split; [exact Hname|].
  split; [rewrite (Hother (lit "wget")) by discriminate; reflexivity|].
  split; [rewrite (Hsettings 0) by discriminate; reflexivity|].
  split; [exact Hself|].
  rewrite (Hobjects 10) by discriminate. reflexivity.
Defined.



(** *** Construction *)

Lemma field_errors_with_handlers h kw a b c d :
  field_errors h (Reference.with_handlers kw a b c d) = field_errors h kw.
Proof. reflexivity. Qed.

(** X3: the handler names handed in never decide whether construction
    succeeds, whatever they are; and a name that was handed in is not kept:
    each of the four handler fields holds the bool that says whether the
    name handed in for it starts with 'self.', and its default name when
    none was handed in. *)
Theorem handler_names_unchecked h kw a b c d :
  (forall errs, construct h (Reference.with_handlers kw a b c d) = Raise (ValidationError errs)
                <-> construct h kw = Raise (ValidationError errs))
  /\ (forall e, construct h (Reference.with_handlers kw a b c d) = Ok e ->
       output_path_func e
       = match a with
         | Some s => HBool (startswith (lit "self.") s)
         | None => HName (lit "self.get_output_path")
         end
       /\ should_extract_func e
          = match b with
            | Some s => HBool (startswith (lit "self.") s)
            | None => HName (lit "self.should_extract")
            end
       /\ extract_func e
          = match c with
            | Some s => HBool (startswith (lit "self.") s)
            | None => HName (lit "self.extract")
            end
       /\ exec_func e
          = match d with
            | Some s => HBool (startswith (lit "self.") s)
            | None => HName (lit "self.exec")
            end).
Proof.
  split.
  - intros errs. unfold construct. rewrite field_errors_with_handlers.
    destruct (field_errors h kw); [split; discriminate|tauto].
  - intros e. unfold construct. rewrite field_errors_with_handlers.
    destruct (field_errors h kw); [|discriminate]. intros [= <-].
    unfold validate_model. simpl.
    destruct (kw_args kw), a, b, c, d; repeat split.
Qed.

Lemma handler_names_unchecked_witness :
  output_path_func Scenario.curl = HBool true
  /\ should_extract_func Scenario.curl = HBool false
  /\ extract_func Scenario.curl = HName (lit "self.extract")
  /\ exec_func Scenario.curl = HName (lit "self.exec").
Proof.
  exact (proj2 (handler_names_unchecked Scenario.linux Scenario.curl_kwargs
                  (Some (lit "self.get_output_path")) (Some (lit "my_should_extract"))
                  None None)
           Scenario.curl eq_refl).
Defined.

(** X4: the command of a constructed extractor is the url followed by the
    explicit argument list when one was handed in (the default and extra
    lists are then left out), and by the default list followed by the extra
    list otherwise; for a url that is not empty no word of the command is
    empty. *)
Theorem command_of_constructed h kw e url :
  construct h kw = Ok e ->
  command e url = url :: match kw_args kw with
                         | Some a => a
                         | None => default [] (kw_default_args kw)
                                   ++ default [] (kw_extra_args kw)
                         end
  /\ (url <> [] -> Forall (fun word => word <> []) (command e url)).
Proof.
  intros Hc.
  assert (args e = Some (match kw_args kw with
                         | Some a => a
                         | None => default [] (kw_default_args kw)
                                   ++ default [] (kw_extra_args kw)
                         end)) as Hargs.
  { revert Hc. unfold construct. destruct (field_errors h kw); [|discriminate].
    intros [= <-]. unfold validate_model. simpl. destruct (kw_args kw); reflexivity. }
  unfold command. rewrite Hargs. split; [reflexivity|].
  intros Hurl. constructor; [exact Hurl|].
  revert Hc. unfold construct.
  destruct (field_errors h kw) eqn:E; [|discriminate]. intros _.
  apply ExtractorSpec.field_errors_nil in E. destruct E as (Hd & Hx & Ha).
  destruct (kw_args kw) as [a|].
  - exact (ExtractorSpec.CmdArgsList_ok_nonempty (Some a) Ha).
  - apply Forall_app. split; apply ExtractorSpec.CmdArgsList_ok_nonempty; assumption.
Qed.

Lemma command_of_constructed_witness :
  command Scenario.curl Scenario.example_url = [Scenario.example_url; lit "--head"]
  /\ Forall (fun word => word <> []) (command Scenario.curl Scenario.example_url).
Proof.
  destruct (command_of_constructed Scenario.linux Scenario.curl_kwargs Scenario.curl
              Scenario.example_url eq_refl) as [H1 H2].
  split; [exact H1|]. apply H2. discriminate.
Defined.

(** *** extract *)

(** X5: [extract] stops before anything is run when it is called with a
    keyword argument (TypeError) and when the binary of the extractor is not
    registered (KeyError on its name): the process is left as it was. *)
Theorem extract_stops_early h self url kw w :
  (kw <> [] -> extract h self url kw w = (Raise TypeError, w))
  /\ (BINARIES w !! binary self = None ->
      extract h self url [] w = (Raise (KeyError (binary self)), w)).
Proof.
  split.
  - intros Hkw. destruct kw; [congruence|]. reflexivity.
  - intros Hb. unfold extract, exec, bind, get, ret, raise. simpl. rewrite Hb. reflexivity.
Qed.

Lemma extract_stops_early_witness :
  extract Scenario.linux Scenario.wget Scenario.example_url [(lit "timeout", lit "60")]
    (Scenario.fresh Scenario.empty_fs)
  = (Raise TypeError, Scenario.fresh Scenario.empty_fs)
  /\ extract Scenario.linux Scenario.curl Scenario.example_url []
       (Scenario.fresh Scenario.empty_fs)
     = (Raise (KeyError (lit "curl")), Scenario.fresh Scenario.empty_fs).
Proof.
  split.
  - apply (proj1 (extract_stops_early Scenario.linux Scenario.wget Scenario.example_url
                    [(lit "timeout", lit "60")] (Scenario.fresh Scenario.empty_fs))).
    discriminate.
  - apply (proj2 (extract_stops_early Scenario.linux Scenario.curl Scenario.example_url
                    [] (Scenario.fresh Scenario.empty_fs))).
    reflexivity.
Defined.



(** X7: a call of [extract] that returns has put two questions to the
    system, in this order: the run of the binary on the command, in the
    output directory, and the listing of that directory.  The files of the
    result are the entries the listing finds on the filesystem the child
    process left, each below the output directory; nothing is printed and
    the cache of browser paths is not touched. *)
Theorem extract_interactions h self url kw w r w' :
  extract h self url kw w = (Ok r, w') ->
  let dir := get_output_path self url in
  exists b,
    BINARIES w !! binary self = Some b
    /\ trace w' = trace w ++ [QBinaryExec b (command self url) dir; QGlob dir (lit "*.*")]
    /\ fs w' = snd (binary_exec h (fs w) b (command self url) dir)
    /\ output_files r = map (below dir) (fs_glob (fs w') dir (lit "*.*"))
    /\ printed w' = printed w
    /\ browser_abspaths w' = browser_abspaths w.
Proof.
  intros Hrun dir.
  destruct (ExtractorSpec.extract_returns_inv h self url kw w r w' Hrun)
    as (-> & b & proc & f' & out & err & Hb & Hexec & Hout & Herr).
  rewrite (ExtractorSpec.extract_runs h self url w b proc f' out err Hb Hexec Hout Herr)
    in Hrun.
  injection Hrun as <- <-. exists b. fold dir in Hexec. rewrite Hexec. simpl.
  rewrite <- app_assoc. repeat split; try reflexivity; assumption.
Qed.

Lemma extract_interactions_witness :
  let h := Scenario.linux_running Scenario.two_lines in
  let w := Scenario.fresh Scenario.wget_output_fs in
  exists r w',
    extract h Scenario.wget Scenario.example_url [] w = (Ok r, w')
    /\ output_files r = [PathOf (lit "wget/index.html")]
    /\ trace w' = [QBinaryExec (BinaryRef (lit "wget"))
                     [Scenario.example_url; lit "--no-check-certificate"]
                     (PathOf (lit "wget"));
                   QGlob (PathOf (lit "wget")) (lit "*.*")].
Proof.
  intros h w.
  destruct (extract h Scenario.wget Scenario.example_url [] w) as [r w'] eqn:Hrun.
  assert (exists r0, r = Ok r0) as [r0 ->].
  { vm_compute in Hrun. injection Hrun as <- _. eexists. reflexivity. }
  destruct (extract_interactions h Scenario.wget Scenario.example_url [] w r0 w' Hrun)
    as (b & Hb & Htr & Hfs & Hfiles & _).
  exists r0, w'. split; [reflexivity|].
  vm_compute in Hb. injection Hb as <-.
  split; [|exact Htr].
  rewrite Hfiles, Hfs. vm_compute. reflexivity.
Defined.

(** X8: in a result of [extract] the output field is the last line of the
    stdout field and holds no newline; it is empty exactly when the stdout
    field is; and the stdout and stderr fields carry no leading or trailing
    whitespace (stripping them again changes nothing). *)
Theorem extract_result_fields h self url kw w r w' :
  extract h self url kw w = (Ok r, w') ->
  output r = last_item (split [NL] (res_stdout r))
  /\ (NL ∉ output r)
  /\ (output r = [] <-> res_stdout r = [])
  /\ strip (res_stdout r) = res_stdout r
  /\ strip (res_stderr r) = res_stderr r.
Proof.
  intros Hrun.
  destruct (ExtractorSpec.extract_returns_inv h self url kw w r w' Hrun)
    as (-> & b & proc & f' & out & err & Hb & Hexec & Hout & Herr).
  rewrite (ExtractorSpec.extract_runs h self url w b proc f' out err Hb Hexec Hout Herr)
    in Hrun.
  injection Hrun as <- _. simpl.
  split; [reflexivity|]. split; [apply PyMore.last_line_newline_free|].
  split; [apply PyMore.last_line_strip_nil|].
  split; apply PyMore.strip_idempotent.
Qed.

Lemma extract_result_fields_witness :
  let h := Scenario.linux_running Scenario.two_lines in
  let w := Scenario.fresh Scenario.wget_output_fs in
  exists r w',
    extract h Scenario.wget Scenario.example_url [] w = (Ok r, w')
    /\ output r = last_item (split [NL] (res_stdout r))
    /\ (NL ∉ output r).
Proof.
  intros h w.
  destruct (extract h Scenario.wget Scenario.example_url [] w) as [r w'] eqn:Hrun.
  assert (exists r0, r = Ok r0) as [r0 ->].
  { vm_compute in Hrun. injection Hrun as <- _. eexists. reflexivity. }
  destruct (extract_result_fields h Scenario.wget Scenario.example_url [] w r0 w' Hrun)
    as (H1 & H2 & _).
  exists r0, w'. auto.
Defined.

End ExtractorMore.

Module LdapMore.
Import Py Proc Ldap.

Lemma construct_inv h fields w c w' :
  construct h fields w = (Ok c, w') ->
  (LDAP_ENABLED fields = false /\ c = fields /\ w' = w)
  \/ (LDAP_ENABLED fields = true /\ LDAP_LIB h = None
      /\ c = set_LDAP_ENABLED false fields /\ w' = add_err missing_packages_warning w)
  \/ (LDAP_ENABLED fields = true /\ LDAP_LIB h <> None /\ companions_set fields = true
      /\ c = fields /\ w' = w).
Proof.
  unfold construct.
  destruct (LDAP_ENABLED fields) eqn:E.
  - destruct (LDAP_LIB h) as [u|] eqn:L.
    + rewrite LdapSpec.validate_with_packages by congruence.
      destruct (companions_set fields) eqn:C; [|discriminate].
      intros [= <- <-]. right. right. repeat split; congruence.
    + rewrite LdapSpec.validate_without_packages by assumption.
      intros [= <- <-]. right. left. auto.
  - rewrite LdapSpec.validate_disabled by assumption.
    intros [= <- <-]. left. auto.
Qed.

Lemma constructed_enabled_is_complete_aux h fields w c w' :
  construct h fields w = (Ok c, w') ->
  LDAP_ENABLED c = true ->
  LDAP_LIB h <> None /\ companions_set c = true /\ LDAP_ENABLED fields = true.
Proof.
  intros Hc He.
  destruct (construct_inv h fields w c w' Hc)
    as [(E & -> & _)|[(E & L & -> & _)|(E & L & C & -> & _)]].
  - congruence.
  - discriminate.
  - auto.
Qed.

(** X9: a configuration that was constructed with LDAP still enabled has
    the LDAP packages installed and its five companion fields set and not
    empty; construction changes no field but the feature flag, and never
    turns the flag on. *)
Theorem constructed_enabled_is_complete h fields w c w' :
  construct h fields w = (Ok c, w') ->
  c = set_LDAP_ENABLED (LDAP_ENABLED c) fields
  /\ (LDAP_ENABLED c = true ->
      LDAP_ENABLED fields = true /\ LDAP_LIB h <> None /\ companions_set c = true).
Proof.
  intros Hc.
  destruct (construct_inv h fields w c w' Hc)
    as [(E & -> & _)|[(E & L & -> & _)|(E & L & C & -> & _)]].
  - split; [destruct fields; reflexivity|]. congruence.
  - split; [reflexivity|]. discriminate.
  - split; [destruct fields; reflexivity|]. auto.
Qed.

Lemma constructed_enabled_is_complete_witness :
  LDAP_ENABLED Scenario.ldap_complete = true
  /\ LDAP_LIB Scenario.linux <> None
  /\ companions_set Scenario.ldap_complete = true.
Proof.
  apply (constructed_enabled_is_complete Scenario.linux Scenario.ldap_complete
           (Scenario.fresh Scenario.empty_fs) Scenario.ldap_complete
           (Scenario.fresh Scenario.empty_fs) eq_refl).
  reflexivity.
Defined.

(** X10: validation is stable: constructing again from a configuration that
    was constructed returns it as it is and writes no further warning. *)
Theorem construct_idempotent h fields w c w' :
  construct h fields w = (Ok c, w') ->
  forall w2, construct h c w2 = (Ok c, w2).
Proof.
  intros Hc w2.
  destruct (construct_inv h fields w c w' Hc)
    as [(E & -> & _)|[(E & L & -> & _)|(E & L & C & -> & _)]].
  - unfold construct. rewrite LdapSpec.validate_disabled by assumption. reflexivity.
  - unfold construct. rewrite LdapSpec.validate_disabled by reflexivity. reflexivity.
  - unfold construct. rewrite LdapSpec.validate_with_packages, C by assumption. reflexivity.
Qed.

Lemma construct_idempotent_witness :
  construct Scenario.linux_without_ldap
    (set_LDAP_ENABLED false Scenario.ldap_enabled_only)
    (add_err missing_packages_warning (Scenario.fresh Scenario.empty_fs))
  = (Ok (set_LDAP_ENABLED false Scenario.ldap_enabled_only),
     add_err missing_packages_warning (Scenario.fresh Scenario.empty_fs)).
Proof.
  apply (construct_idempotent Scenario.linux_without_ldap Scenario.ldap_enabled_only
           (Scenario.fresh Scenario.empty_fs) _ _ eq_refl).
Defined.

(** X11: construction touches the process in one way only: the warning
    about the missing packages is added to stderr exactly when LDAP is
    enabled and the LDAP packages are not installed, also when construction
    fails. *)
Theorem construct_writes_warning h fields w r w' :
  construct h fields w = (r, w') ->
  w' = if LDAP_ENABLED fields && negb (some_truthy (LDAP_LIB h))
       then add_err missing_packages_warning w
       else w.
Proof.
  unfold construct.
  destruct (LDAP_ENABLED fields) eqn:E.
  - destruct (LDAP_LIB h) as [u|] eqn:L.
    + rewrite LdapSpec.validate_with_packages by congruence.
      destruct (companions_set fields); intros [= <- <-]; reflexivity.
    + rewrite LdapSpec.validate_without_packages by assumption.
      intros [= <- <-]. reflexivity.
  - rewrite LdapSpec.validate_disabled by assumption. intros [= <- <-]. reflexivity.
Qed.

Lemma construct_writes_warning_witness :
  snd (construct Scenario.linux_without_ldap Scenario.ldap_enabled_only
         (Scenario.fresh Scenario.empty_fs))
  = add_err missing_packages_warning (Scenario.fresh Scenario.empty_fs).
Proof.
  apply (construct_writes_warning Scenario.linux_without_ldap Scenario.ldap_enabled_only
           (Scenario.fresh Scenario.empty_fs)
           (fst (construct Scenario.linux_without_ldap Scenario.ldap_enabled_only
                   (Scenario.fresh Scenario.empty_fs)))).
  reflexivity.
Defined.

(** X12: the user search is None, with no error, when the LDAP packages are
    not installed; with the packages installed it is built exactly when the
    attribute name and the user filter are both set, its filter being
    '(&(' attr '=%(user)s)' filter ')', and is a TypeError otherwise.  The
    attribute name is not among the fields the validator asks for: a
    configuration constructed with LDAP enabled and no attribute name
    raises that TypeError. *)
Theorem user_search_cases h self :
  (LDAP_LIB h = None -> AUTH_LDAP_USER_SEARCH h self = Ok None)
  /\ (LDAP_LIB h <> None ->
      forall a f, LDAP_USERNAME_ATTR self = Some a -> LDAP_USER_FILTER self = Some f ->
      AUTH_LDAP_USER_SEARCH h self
      = Ok (Some (mkLDAPSearch (LDAP_USER_BASE self)
                    (lit "(&(" ++ a ++ lit "=%(user)s)" ++ f ++ lit ")"))))
  /\ (LDAP_LIB h <> None ->
      LDAP_USERNAME_ATTR self = None \/ LDAP_USER_FILTER self = None ->
      AUTH_LDAP_USER_SEARCH h self = Raise TypeError)
  /\ (forall fields w w',
        construct h fields w = (Ok self, w') ->
        LDAP_ENABLED self = true -> LDAP_USERNAME_ATTR self = None ->
        AUTH_LDAP_USER_SEARCH h self = Raise TypeError).
Proof.
  assert (LDAP_LIB h <> None ->
          LDAP_USERNAME_ATTR self = None \/ LDAP_USER_FILTER self = None ->
          AUTH_LDAP_USER_SEARCH h self = Raise TypeError) as Hraise.
  { intros L Hnone. unfold AUTH_LDAP_USER_SEARCH, search_filter.
    destruct (LDAP_LIB h); [|congruence].
    destruct (LDAP_USERNAME_ATTR self); [|reflexivity].
    destruct (LDAP_USER_FILTER self); [|reflexivity].
    destruct Hnone; discriminate. }
  split; [|split; [|split]].
  - intros L. unfold AUTH_LDAP_USER_SEARCH. rewrite L. reflexivity.
  - intros L a f Ha Hf. unfold AUTH_LDAP_USER_SEARCH, search_filter.
    destruct (LDAP_LIB h); [|congruence]. rewrite Ha, Hf. reflexivity.
  - exact Hraise.
  - intros fields w w' Hc He Ha.
    destruct (constructed_enabled_is_complete_aux h fields w self w' Hc He) as [L _].
    apply Hraise; auto.
Qed.

Lemma user_search_cases_witness :
  AUTH_LDAP_USER_SEARCH Scenario.linux_without_ldap Scenario.ldap_enabled_only = Ok None
  /\ AUTH_LDAP_USER_SEARCH Scenario.linux Scenario.ldap_with_username_attr
     = Ok (Some (mkLDAPSearch (Some (lit "ou=u")) (lit "(&(uid=%(user)s)(active=1))")))
  /\ AUTH_LDAP_USER_SEARCH Scenario.linux Scenario.ldap_without_username_attr
     = Raise TypeError.
Proof.
  split; [|split].
  - apply (proj1 (user_search_cases Scenario.linux_without_ldap Scenario.ldap_enabled_only)).
    reflexivity.
  - apply (proj1 (proj2 (user_search_cases Scenario.linux Scenario.ldap_with_username_attr))
             ltac:(discriminate) (lit "uid") (lit "(active=1)")); reflexivity.
  - apply (proj2 (proj2 (proj2 (user_search_cases Scenario.linux
                                  Scenario.ldap_without_username_attr)))
             Scenario.ldap_without_username_attr (Scenario.fresh Scenario.empty_fs)
             (Scenario.fresh Scenario.empty_fs)); reflexivity.
Defined.

End LdapMore.

Module PlaywrightMore.
Import Py Proc Playwright ProcSpec.

(** *** The browsers directory *)

Lemma expanduser_macos h :
  expanduser h MACOS_PLAYWRIGHT_CACHE_DIR =
  match home h with
  | Some d => ret (below (PathOf d) [lit "Library"; lit "Caches"; lit "ms-playwright"])
  | None => raise RuntimeError
  end.
Proof. reflexivity. Qed.

Lemma expanduser_linux h :
  expanduser h LINUX_PLAYWRIGHT_CACHE_DIR =
  match home h with
  | Some d => ret (below (PathOf d) [lit ".cache"; lit "ms-playwright"])
  | None => raise RuntimeError
  end.
Proof. reflexivity. Qed.

Lemma browsers_dir_run h w :
  playwright_browsers_dir h w
  = (Reference.browsers_dir_on h (fs w), Reference.asked_browsers_dir h w).
Proof.
  unfold playwright_browsers_dir, Reference.browsers_dir_on, Reference.asked_browsers_dir,
    Reference.browsers_path_env, Reference.default_cache_parts, bind, isdir, ask.
  rewrite expanduser_macos, expanduser_linux.
  destruct (opt_str_truthy (environ_get h (lit "PLAYWRIGHT_BROWSERS_PATH"))); simpl.
  - destruct (fs_isdir (fs w) _); [reflexivity|].
    destruct (str_eqb (OPERATING_SYSTEM h) (lit "darwin")), (home h); reflexivity.
  - destruct (str_eqb (OPERATING_SYSTEM h) (lit "darwin")), (home h); reflexivity.
Qed.

Lemma asked_browsers_dir_frame h w :
  fs (Reference.asked_browsers_dir h w) = fs w
  /\ browser_abspaths (Reference.asked_browsers_dir h w) = browser_abspaths w
  /\ PATH (Reference.asked_browsers_dir h w) = PATH w
  /\ printed (Reference.asked_browsers_dir h w) = printed w.
Proof.
  unfold Reference.asked_browsers_dir. destruct (opt_str_truthy _); auto.
Qed.

(** X13: the browsers directory is the path PLAYWRIGHT_BROWSERS_PATH names
    when that variable is set, not empty, and names a directory (the one
    question put to the filesystem); in every other case it is the default
    cache below the home directory, Library/Caches/ms-playwright on macOS
    and .cache/ms-playwright elsewhere, and a RuntimeError when the home
    directory is not known.  Computing it changes nothing but the trace. *)
Theorem browsers_dir_cases h w :
  (forall p, Reference.browsers_path_env h = Some p -> p <> [] ->
     fs_isdir (fs w) p = true ->
     playwright_browsers_dir h w = (Ok (PathOf p), log (QIsdir p) w))
  /\ (forall p, Reference.browsers_path_env h = Some p -> p <> [] ->
      fs_isdir (fs w) p = false ->
      playwright_browsers_dir h w
      = (match home h with
         | Some d => Ok (below (PathOf d) (Reference.default_cache_parts h))
         | None => Raise RuntimeError
         end, log (QIsdir p) w))
  /\ (Reference.browsers_path_env h = None \/ Reference.browsers_path_env h = Some [] ->
      playwright_browsers_dir h w
      = (match home h with
         | Some d => Ok (below (PathOf d) (Reference.default_cache_parts h))
         | None => Raise RuntimeError
         end, w)).
Proof.
  rewrite browsers_dir_run.
  unfold Reference.browsers_dir_on, Reference.asked_browsers_dir.
  split; [|split].
  - intros p -> Hp Hd. destruct p; [congruence|]. simpl. rewrite Hd. reflexivity.
  - intros p -> Hp Hd. destruct p; [congruence|]. simpl. rewrite Hd. reflexivity.
  - intros [->| ->]; reflexivity.
Qed.

Lemma browsers_dir_cases_witness :
  playwright_browsers_dir (Scenario.linux_with_browsers_path (lit "/srv/browsers"))
    (Scenario.fresh Scenario.srv_browsers_fs)
  = (Ok (PathOf (lit "/srv/browsers")),
     log (QIsdir (lit "/srv/browsers")) (Scenario.fresh Scenario.srv_browsers_fs))
  /\ playwright_browsers_dir (Scenario.linux_with_browsers_path (lit "/srv/browsers"))
       (Scenario.fresh Scenario.empty_fs)
     = (Ok (PathOf (lit "/home/u/.cache/ms-playwright")),
        log (QIsdir (lit "/srv/browsers")) (Scenario.fresh Scenario.empty_fs))
  /\ playwright_browsers_dir Scenario.macos (Scenario.fresh Scenario.empty_fs)
     = (Ok (PathOf (lit "/home/u/Library/Caches/ms-playwright")),
        Scenario.fresh Scenario.empty_fs).
Proof.
  split; [|split].
  - apply (proj1 (browsers_dir_cases (Scenario.linux_with_browsers_path (lit "/srv/browsers"))
                    (Scenario.fresh Scenario.srv_browsers_fs)) (lit "/srv/browsers"));
      [reflexivity|discriminate|reflexivity].
  - apply (proj1 (proj2 (browsers_dir_cases
                           (Scenario.linux_with_browsers_path (lit "/srv/browsers"))
                           (Scenario.fresh Scenario.empty_fs))) (lit "/srv/browsers"));
      [reflexivity|discriminate|reflexivity].
  - apply (proj2 (proj2 (browsers_dir_cases Scenario.macos
                           (Scenario.fresh Scenario.empty_fs)))).
    left. reflexivity.
Defined.

(** *** setup *)

Lemma setup_run h w :
  let w0 := if bool_decide (cparts (LIB_DIR h) = cparts (DEFAULT_LIB_DIR h))
            then w else set_PATH (Reference.PATH_after_setup h (PATH w)) w in
  let w1 := log (QLoad "pip") w0 in
  setup h w =
    match fs_pip (fs w) with
    | None => (Raise (AssertionError "Pip bin provider not initialized"), w1)
    | Some _ =>
        match Reference.browsers_dir_on h (fs w) with
        | Raise e => (Raise e, Reference.asked_browsers_dir h w1)
        | Ok d =>
            mkdir h d (Reference.asked_browsers_dir h (Reference.asked_browsers_dir h w1))
        end
    end.
Proof.
  intros w0 w1. subst w0 w1. unfold setup, Reference.PATH_after_setup.
  unfold assert. unfold bind, ret, raise, ask, modify.
  destruct (bool_decide (cparts (LIB_DIR h) = cparts (DEFAULT_LIB_DIR h)));
    cbn [fs log set_PATH some_truthy];
    (destruct (fs_pip (fs w)); cbn [some_truthy]; cbv beta iota; [|reflexivity]);
    rewrite browsers_dir_run; cbn [fs log set_PATH];
    (destruct (Reference.browsers_dir_on h (fs w)) as [d|e] eqn:Hd; [|reflexivity]);
    rewrite browsers_dir_run; rewrite (proj1 (asked_browsers_dir_frame h _));
    cbn [fs log set_PATH]; rewrite Hd; reflexivity.
Qed.

(** X14: [setup] checks for pip before it creates anything: without pip it
    fails its assertion, the filesystem is as it was and the one question
    asked is the one for pip. *)
Theorem setup_needs_pip h w :
  fs_pip (fs w) = None ->
  exists w', setup h w = (Raise (AssertionError "Pip bin provider not initialized"), w')
             /\ fs w' = fs w
             /\ trace w' = trace w ++ [QLoad "pip"]
             /\ browser_abspaths w' = browser_abspaths w.
Proof.
  intros Hpip. rewrite setup_run, Hpip. eexists. split; [reflexivity|].
  destruct (bool_decide _); auto.
Qed.

Lemma setup_needs_pip_witness :
  exists w', setup Scenario.linux (Scenario.fresh Scenario.no_pip_fs)
             = (Raise (AssertionError "Pip bin provider not initialized"), w')
             /\ fs w' = Scenario.no_pip_fs
             /\ trace w' = [QLoad "pip"]
             /\ browser_abspaths w' = ∅.
Proof.
  apply (setup_needs_pip Scenario.linux (Scenario.fresh Scenario.no_pip_fs)). reflexivity.
Defined.

Lemma mkdir_frame h d w r w' :
  mkdir h d w = (r, w') ->
  PATH w' = PATH w /\ printed w' = printed w
  /\ browser_abspaths w' = browser_abspaths w
  /\ trace w' = trace w ++ [QMkdir d].
Proof.
  unfold mkdir. destruct (os_mkdir h (fs w) d) as [ok f']. intros [= <- <-]. auto.
Qed.

Lemma setup_frame h w r w1 :
  setup h w = (r, w1) ->
  PATH w1 = Reference.PATH_after_setup h (PATH w)
  /\ printed w1 = printed w
  /\ (r = Ok tt -> exists d, Reference.browsers_dir_on h (fs w) = Ok d
                             /\ last (trace w1) = Some (QMkdir d)).
Proof.
  rewrite setup_run. unfold Reference.PATH_after_setup.
  destruct (fs_pip (fs w)).
  - destruct (Reference.browsers_dir_on h (fs w)) as [d|e].
    + intros Hm. destruct (mkdir_frame h d _ r w1 Hm) as (HP & Hpr & _ & Htr).
      rewrite HP, Hpr, Htr.
      rewrite !(proj1 (proj2 (proj2 (asked_browsers_dir_frame h _)))).
      rewrite !(proj2 (proj2 (proj2 (asked_browsers_dir_frame h _)))).
      destruct (bool_decide _); simpl; (split; [reflexivity|]); (split; [reflexivity|]);
        intros _; exists d; (split; [reflexivity|]); apply last_snoc.
    + intros [= <- <-].
      rewrite (proj1 (proj2 (proj2 (asked_browsers_dir_frame h _)))).
      rewrite (proj2 (proj2 (proj2 (asked_browsers_dir_frame h _)))).
      destruct (bool_decide _); simpl; repeat split; discriminate.
  - intros [= <- <-]. destruct (bool_decide _); simpl; repeat split; discriminate.
Qed.

(** X15: a [setup] that completes leaves the search path of the provider
    as it was when the configured library directory is the default one, and
    sets it to that directory's bin followed by the default search path
    otherwise; its last act is to create the browsers directory; it prints
    nothing; and running it again gives the same search path. *)
Theorem setup_sets_PATH h w w1 :
  setup h w = (Ok tt, w1) ->
  PATH w1 = Reference.PATH_after_setup h (PATH w)
  /\ (exists d, Reference.browsers_dir_on h (fs w) = Ok d
                /\ last (trace w1) = Some (QMkdir d))
  /\ printed w1 = printed w
  /\ (forall r w2, setup h w1 = (r, w2) -> PATH w2 = PATH w1).
Proof.
  intros Hs. destruct (setup_frame h w _ w1 Hs) as (HP & Hpr & Hd).
  split; [exact HP|]. split; [apply Hd; reflexivity|]. split; [exact Hpr|].
  intros r w2 Hs2. destruct (setup_frame h w1 _ w2 Hs2) as (HP2 & _).
  rewrite HP2, HP. unfold Reference.PATH_after_setup.
  destruct (bool_decide _); reflexivity.
Qed.

Lemma setup_sets_PATH_witness :
  let h := Scenario.linux_with_browsers_path (lit "/srv/browsers") in
  let w1 := snd (setup h (Scenario.fresh Scenario.srv_browsers_fs)) in
  PATH w1 = lit "/opt/archivebox/lib/bin:/usr/bin"
  /\ last (trace w1) = Some (QMkdir (PathOf (lit "/srv/browsers"))).
Proof.
  intros h w1.
  destruct (setup_sets_PATH h (Scenario.fresh Scenario.srv_browsers_fs) w1)
    as (HP & (d & Hd & Hl) & _).
  - vm_compute. reflexivity.
  - split; [rewrite HP; vm_compute; reflexivity|].
    rewrite Hl. vm_compute in Hd. injection Hd as <-. reflexivity.
Defined.

(** *** installed_browser_bins *)

Lemma installed_browser_bins_run h nm w :
  installed_browser_bins h nm w =
  match Reference.browsers_dir_on h (fs w) with
  | Raise e => (Raise e, Reference.asked_browsers_dir h w)
  | Ok d =>
      (Ok (if str_eqb (str_lower h (platform_system h)) (lit "darwin")
           then sorted (Reference.browser_matches h (fs w) nm d)
           else filter (Reference.kept_browser_bin h)
                  (sorted (Reference.browser_matches h (fs w) nm d))),
       log (QGlob d (Reference.browser_pattern h nm)) (Reference.asked_browsers_dir h w))
  end.
Proof.
  unfold installed_browser_bins, Reference.browser_matches, Reference.browser_pattern.
  destruct (str_eqb (str_lower h (platform_system h)) (lit "darwin"));
    unfold bind; rewrite browsers_dir_run;
    (destruct (Reference.browsers_dir_on h (fs w)) as [d|e]; [|reflexivity]);
    unfold glob_list, ask, ret; rewrite (proj1 (asked_browsers_dir_frame h w)).
  - reflexivity.
  - rewrite PlaywrightSpec.keep_browser_bin_filter. reflexivity.
Qed.

(** X16: [installed_browser_bins] treats 'chrome' as 'chromium'.  What it
    returns is sorted and made of matches of its pattern below the browsers
    directory: on macOS all the matches, each as often as the search gave
    it; elsewhere the matches whose path holds '/chrom' and neither
    'xdg-settings' nor 'ffmpeg' and whose file name, in lower case, holds
    'chrom'. *)
Theorem installed_browser_bins_result h w :
  installed_browser_bins h (lit "chrome") w = installed_browser_bins h (lit "chromium") w
  /\ (forall nm bins w',
       installed_browser_bins h nm w = (Ok bins, w') ->
       exists d,
         Reference.browsers_dir_on h (fs w) = Ok d
         /\ Reference.ordered bins
         /\ Forall (fun p => p ∈ Reference.browser_matches h (fs w) nm d) bins
         /\ (str_lower h (platform_system h) = lit "darwin" ->
             bins ≡ₚ Reference.browser_matches h (fs w) nm d)
         /\ (str_lower h (platform_system h) <> lit "darwin" ->
             bins ≡ₚ filter (Reference.kept_browser_bin h)
                       (Reference.browser_matches h (fs w) nm d))).
Proof.
  split; [reflexivity|].
  intros nm bins w'. rewrite installed_browser_bins_run.
  destruct (Reference.browsers_dir_on h (fs w)) as [d|e]; [|discriminate].
  intros [= <- _]. exists d. split; [reflexivity|].
  destruct (str_eqb (str_lower h (platform_system h)) (lit "darwin")) eqn:Hd.
  - apply bool_decide_eq_true in Hd.
    split; [apply PySpec.sorted_ordered|].
    split; [|split; [intros _; apply PyMore.sorted_perm|congruence]].
    apply Forall_forall. intros p Hp. rewrite PyMore.sorted_perm in Hp. exact Hp.
  - apply bool_decide_eq_false in Hd.
    split; [apply PySpec.filter_ordered, PySpec.sorted_ordered|].
    split; [|split; [congruence|intros _; rewrite PyMore.sorted_perm; reflexivity]].
    apply Forall_forall. intros p Hp. apply list_elem_of_filter in Hp.
    destruct Hp as [_ Hp]. rewrite PyMore.sorted_perm in Hp. exact Hp.
Qed.

Lemma installed_browser_bins_result_witness :
  exists d,
    Reference.browsers_dir_on Scenario.linux Scenario.linux_cache_fs = Ok d
    /\ Reference.ordered
         [PathOf (lit "/home/u/.cache/ms-playwright/chromium-1097/chrome-linux/chrome");
          Scenario.chromium_1200].
Proof.
  destruct (proj2 (installed_browser_bins_result Scenario.linux
                     (Scenario.fresh Scenario.linux_cache_fs)) (lit "*")
              [PathOf (lit "/home/u/.cache/ms-playwright/chromium-1097/chrome-linux/chrome");
               Scenario.chromium_1200]
              (snd (installed_browser_bins Scenario.linux (lit "*")
                      (Scenario.fresh Scenario.linux_cache_fs))))
    as (d & Hd & Hord & _).
  - vm_compute. reflexivity.
  - exists d. split; assumption.
Defined.

(** *** The cache *)

(** X17: the two handlers write under no key but 'chrome': the entry of any
    other key of the cache is after a call what it was before, whatever the
    name the handler was called with and however the call ends. *)
Theorem handlers_write_chrome_only h k :
  k <> lit "chrome" ->
  (forall nm w r w', default_abspath_handler h nm w = (r, w') ->
     browser_abspaths w' !! k = browser_abspaths w !! k)
  /\ (forall nm pk w r w', default_install_handler h nm pk w = (r, w') ->
      browser_abspaths w' !! k = browser_abspaths w !! k).
Proof.
  intros Hk. split.
  - intros nm w r w' Hrun. destruct (decide (nm = lit "chrome")) as [->|Hne].
    + assert (keeps (fun m => m !! k = browser_abspaths w !! k) (fun _ => True)
                (default_abspath_handler h (lit "chrome"))) as K.
      { apply PlaywrightSpec.keeps_abspath_handler; auto.
        intros m p Hm. rewrite lookup_insert_ne by congruence. exact Hm. }
      exact (proj1 (K w r w' Hrun eq_refl)).
    + rewrite (PlaywrightSpec.abspath_handler_other_name h nm w Hne) in Hrun.
      injection Hrun as _ <-. reflexivity.
  - intros nm pk w r w' Hrun. destruct (decide (nm = lit "chrome")) as [->|Hne].
    + assert (keeps (fun m => m !! k = browser_abspaths w !! k) (fun _ => True)
                (default_install_handler h (lit "chrome") pk)) as K.
      { apply PlaywrightSpec.keeps_install_handler; auto.
        intros m p Hm. rewrite lookup_insert_ne by congruence. exact Hm. }
      exact (proj1 (K w r w' Hrun eq_refl)).
    + rewrite (PlaywrightSpec.install_handler_other_name h nm pk w Hne) in Hrun.
      destruct (setup h w) as [[[]|e] w1] eqn:Hs; injection Hrun as _ <-;
        rewrite (PlaywrightSpec.setup_same_cache h w _ w1 Hs); reflexivity.
Qed.

Lemma handlers_write_chrome_only_witness :
  browser_abspaths
    (snd (default_abspath_handler Scenario.linux (lit "chrome")
            (Scenario.fresh Scenario.linux_cache_fs))) !! lit "firefox"
  = browser_abspaths (Scenario.fresh Scenario.linux_cache_fs) !! lit "firefox".
Proof.
  apply (proj1 (handlers_write_chrome_only Scenario.linux (lit "firefox")
                  ltac:(discriminate)) (lit "chrome")
           (Scenario.fresh Scenario.linux_cache_fs)
           (fst (default_abspath_handler Scenario.linux (lit "chrome")
                   (Scenario.fresh Scenario.linux_cache_fs)))).
  vm_compute. reflexivity.
Defined.

(** X18: a path that a resolve call with an empty cache returns either is
    one of the installed browser binaries and holds 'chrome' in its path,
    or, when no installed binary holds 'chrome', is what the search path
    gives for google-chrome-stable.  The search reads the filesystem the
    call started on. *)
Theorem resolved_path_origin h w p w1 :
  browser_abspaths w !! lit "chrome" = None ->
  default_abspath_handler h (lit "chrome") w = (Ok (Some p), w1) ->
  exists bins w0,
    installed_browser_bins h (lit "*") w = (Ok bins, w0)
    /\ fs w0 = fs w
    /\ ((p ∈ bins /\ contains (lit "chrome") (str_of p) = true)
        \/ (Reference.candidates (lit "chrome") bins = []
            /\ fs_which (fs w) (lit "google-chrome-stable") (env_PATH h) = Some p)).
Proof.
  intros Hmiss. unfold default_abspath_handler, bind, assert, get, ret. simpl.
  rewrite Hmiss.
  destruct (installed_browser_bins h (lit "*") w) as [[bins|e] w0] eqn:Hbins;
    [|discriminate].
  assert (fs w0 = fs w) as Hfs.
  { revert Hbins. rewrite installed_browser_bins_run.
    destruct (Reference.browsers_dir_on h (fs w)); [|discriminate].
    intros [= _ <-]. simpl. apply asked_browsers_dir_frame. }
  fold (Reference.candidates (lit "chrome") bins).
  destruct (last (Reference.candidates (lit "chrome") bins)) as [newest|] eqn:Hlast.
  - unfold cache_put, modify. intros [= -> _]. exists bins, w0.
    split; [reflexivity|]. split; [exact Hfs|]. left.
    apply last_Some_elem_of in Hlast. unfold Reference.candidates in Hlast.
    apply list_elem_of_filter in Hlast. tauto.
  - unfold bin_abspath, ask, cache_put, modify.
    destruct (fs_which (fs w0) _ _) as [q|] eqn:Hw; [|discriminate].
    intros [= -> _]. exists bins, w0. split; [reflexivity|]. split; [exact Hfs|].
    right. rewrite <- Hfs. split; [|exact Hw]. apply last_None. exact Hlast.
Qed.

Lemma resolved_path_origin_witness :
  exists bins w0,
    installed_browser_bins Scenario.linux (lit "*") (Scenario.fresh Scenario.linux_cache_fs)
    = (Ok bins, w0)
    /\ fs w0 = Scenario.linux_cache_fs
    /\ ((Scenario.chromium_1200 ∈ bins
         /\ contains (lit "chrome") (str_of Scenario.chromium_1200) = true)
        \/ (Reference.candidates (lit "chrome") bins = []
            /\ fs_which Scenario.linux_cache_fs (lit "google-chrome-stable")
                 (env_PATH Scenario.linux) = Some Scenario.chromium_1200)).
Proof.
  apply (resolved_path_origin Scenario.linux (Scenario.fresh Scenario.linux_cache_fs)
           Scenario.chromium_1200
           (snd (default_abspath_handler Scenario.linux (lit "chrome")
                   (Scenario.fresh Scenario.linux_cache_fs)))).
  - reflexivity.
  - vm_compute. reflexivity.
Defined.

(** X19: a resolve call that finds nothing stores nothing: the cache is as
    it was, it held no entry for 'chrome', and the last question asked was
    the one for google-chrome-stable on the search path; the next call
    searches again. *)
Theorem resolve_not_found h w w1 :
  default_abspath_handler h (lit "chrome") w = (Ok None, w1) ->
  browser_abspaths w1 = browser_abspaths w
  /\ browser_abspaths w !! lit "chrome" = None
  /\ last (trace w1) = Some (QWhich (lit "google-chrome-stable") (env_PATH h))
  /\ fs_which (fs w) (lit "google-chrome-stable") (env_PATH h) = None.
Proof.
  intros Hrun. split; [exact (PlaywrightSpec.abspath_handler_not_found h w w1 Hrun)|].
  revert Hrun. unfold default_abspath_handler, bind, assert, get, ret. simpl.
  destruct (browser_abspaths w !! lit "chrome") as [p0|]; [discriminate|].
  rewrite installed_browser_bins_run.
  destruct (Reference.browsers_dir_on h (fs w)) as [d|e]; [|discriminate].
  destruct (last _); [discriminate|].
  unfold bin_abspath, ask. simpl.
  rewrite (proj1 (asked_browsers_dir_frame h w)).
  destruct (fs_which (fs w) _ _) eqn:Hw; [discriminate|].
  intros [= <-]. simpl. split; [reflexivity|]. split; [apply last_snoc|reflexivity].
Qed.

Lemma resolve_not_found_witness :
  let w1 := snd (default_abspath_handler Scenario.linux (lit "chrome")
                   (Scenario.fresh Scenario.empty_fs)) in
  browser_abspaths w1 = ∅
  /\ last (trace w1) = Some (QWhich (lit "google-chrome-stable") (lit "/usr/bin")).
Proof.
  intros w1.
  destruct (resolve_not_found Scenario.linux (Scenario.fresh Scenario.empty_fs) w1)
    as (H1 & _ & H3 & _).
  - vm_compute. reflexivity.
  - split; [exact H1|exact H3].
Defined.

(** *** Installation *)

(** X20: when [setup] has completed and playwright itself is not found, the
    install handler raises the error that says so, before any child process
    is started: the one thing added to the trace of [setup] is the lookup
    of playwright, and nothing is printed. *)
Theorem install_needs_installer h packages w w1 :
  setup h w = (Ok tt, w1) ->
  fs_playwright (fs w1) = None ->
  default_install_handler h (lit "chrome") packages w
  = (Raise (Exception not_available_msg), log (QLoad "playwright") w1).
Proof.
  intros Hs Hi. unfold default_install_handler.
  rewrite (PlaywrightSpec.bind_run _ _ w tt w1 Hs).
  unfold assert. simpl str_eqb. cbn iota.
  rewrite (PlaywrightSpec.bind_run _ _ w1 tt w1 eq_refl).
  unfold INSTALLER_BIN_ABSPATH at 1.
  rewrite (PlaywrightSpec.bind_run _ _ w1 (fs_playwright (fs w1))
             (log (QLoad "playwright") w1) eq_refl).
  rewrite Hi. reflexivity.
Qed.

Lemma install_needs_installer_witness :
  fst (default_install_handler Scenario.linux (lit "chrome") None
         (Scenario.fresh Scenario.no_playwright_fs))
  = Raise (Exception not_available_msg).
Proof.
  rewrite (install_needs_installer Scenario.linux None
             (Scenario.fresh Scenario.no_playwright_fs)
             (snd (setup Scenario.linux (Scenario.fresh Scenario.no_playwright_fs)))).
  - reflexivity.
  - vm_compute. reflexivity.
  - reflexivity.
Defined.

Lemma logged_here q w : q ∈ trace (log q w).
Proof. simpl. rewrite elem_of_app. right. apply list_elem_of_here. Qed.

Lemma logged_before q q' w : q ∈ trace w -> q ∈ trace (log q' w).
Proof. intros H. simpl. rewrite elem_of_app. left. exact H. Qed.

Lemma record_installed_inv h nm proc w r w' :
  record_installed h nm proc w = (r, w') ->
  (output_lines h (stdout proc) = [] /\ r = Ok tt /\ w' = w)
  \/ (exists line0 rest,
        output_lines h (stdout proc) = line0 :: rest
        /\ ((exists e, Reference.browsers_dir_on h (fs w) = Raise e /\ r = Raise e
                       /\ browser_abspaths w' = browser_abspaths w)
            \/ (exists d,
                  Reference.browsers_dir_on h (fs w) = Ok d
                  /\ r = Ok tt
                  /\ fs w' = fs w
                  /\ QIsfile (Reference.referenced_path d line0) ∈ trace w'
                  /\ browser_abspaths w' =
                     if fs_isfile (fs w) (Reference.referenced_path d line0)
                        && fs_access_x (fs w) (Reference.referenced_path d line0)
                     then <[nm := Reference.referenced_path d line0]> (browser_abspaths w)
                     else browser_abspaths w))).
Proof.
  unfold record_installed.
  destruct (output_lines h (stdout proc)) as [|line0 rest]; [intros [= <- <-]; auto|].
  intros Hrun. right. exists line0, rest. split; [reflexivity|].
  revert Hrun. unfold bind. rewrite browsers_dir_run.
  destruct (Reference.browsers_dir_on h (fs w)) as [d|e] eqn:Hd.
  - rewrite browsers_dir_run. rewrite (proj1 (asked_browsers_dir_frame h w)), Hd.
    fold (Reference.referenced_path d line0).
    set (p := Reference.referenced_path d line0).
    set (w2 := Reference.asked_browsers_dir h (Reference.asked_browsers_dir h w)).
    assert (fs w2 = fs w /\ browser_abspaths w2 = browser_abspaths w) as [Hf Hc].
    { subst w2. split.
      - rewrite !(proj1 (asked_browsers_dir_frame h _)). reflexivity.
      - rewrite !(proj1 (proj2 (asked_browsers_dir_frame h _))). reflexivity. }
    unfold isfile, access_x, ask, cache_put, modify, ret. rewrite Hf.
    destruct (fs_isfile (fs w) p) eqn:Hif; simpl.
    + rewrite Hf. destruct (fs_access_x (fs w) p) eqn:Hax; intros [= <- <-]; right;
        exists d; fold p; rewrite Hif, Hax;
        (split; [reflexivity|]); (split; [reflexivity|]); (split; [exact Hf|]);
        (split; [|simpl; rewrite ?Hc; reflexivity]).
      * change (QIsfile p ∈ trace (log (QAccess p) (log (QIsfile p) w2))).
        apply logged_before, logged_here.
      * apply logged_before, logged_here.
    + intros [= <- <-]. right. exists d. fold p. rewrite Hif.
      split; [reflexivity|]. split; [reflexivity|]. split; [exact Hf|].
      split; [apply logged_here|simpl; exact Hc].
  - intros [= <- <-]. left. exists e. repeat split.
    apply asked_browsers_dir_frame.
Qed.

(** X21: the scan of the install output changes the cache only by storing,
    under the name it was given, the file named by the first matching
    output line (what follows the browsers directory in that line, joined
    to the browsers directory), and only when the filesystem says that this
    file exists and may be executed. *)
Theorem record_installed_executable_only h nm proc w r w' :
  record_installed h nm proc w = (r, w') ->
  browser_abspaths w' = browser_abspaths w
  \/ exists line0 rest d,
       output_lines h (stdout proc) = line0 :: rest
       /\ Reference.browsers_dir_on h (fs w) = Ok d
       /\ browser_abspaths w'
          = <[nm := Reference.referenced_path d line0]> (browser_abspaths w)
       /\ fs_isfile (fs w) (Reference.referenced_path d line0) = true
       /\ fs_access_x (fs w) (Reference.referenced_path d line0) = true
       /\ r = Ok tt.
Proof.
  intros Hrun.
  destruct (record_installed_inv h nm proc w r w' Hrun)
    as [(_ & _ & ->)|(line0 & rest & Hl & [(e & _ & _ & Hc)|(d & Hd & Hr & _ & _ & Hc)])];
    [left; reflexivity|left; exact Hc|].
  destruct (fs_isfile (fs w) (Reference.referenced_path d line0)) eqn:Hf;
    [|left; exact Hc].
  destruct (fs_access_x (fs w) (Reference.referenced_path d line0)) eqn:Hx;
    [|left; exact Hc].
  right. exists line0, rest, d. auto 10.
Qed.

Lemma record_installed_executable_only_witness :
  let w := Scenario.fresh Scenario.empty_fs in
  let w' := snd (record_installed Scenario.linux (lit "chrome") Scenario.installed_chromium w) in
  exists line0 rest d,
    output_lines Scenario.linux (stdout Scenario.installed_chromium) = line0 :: rest
    /\ Reference.browsers_dir_on Scenario.linux (fs w) = Ok d
    /\ browser_abspaths w' = <[lit "chrome" := Reference.referenced_path d line0]> ∅
    /\ fs_isfile (fs w) (Reference.referenced_path d line0) = true
    /\ fs_access_x (fs w) (Reference.referenced_path d line0) = true.
Proof.
  intros w w'.
  destruct (record_installed_executable_only Scenario.linux (lit "chrome")
              Scenario.installed_chromium w
              (fst (record_installed Scenario.linux (lit "chrome")
                      Scenario.installed_chromium w)) w')
    as [Hsame|(line0 & rest & d & Hl & Hd & Hc & Hf & Hx & _)].
  - apply surjective_pairing.
  - exfalso.
    assert (browser_abspaths w' !! lit "chrome"
            = Some (PathOf (lit "/chromium-1200/chrome-linux/chrome"))) as Hstored
      by (vm_compute; reflexivity).
    rewrite Hsame in Hstored. discriminate.
  - exists line0, rest, d. auto 10.
Defined.

Lemma anchored_replaces d rest :
  div d (SLASH :: rest) = PathOf (SLASH :: rest).
Proof.
  unfold div, joinpath. simpl anchor. unfold parse_anchor.
  cbn [startswith]. rewrite N.eqb_refl. cbn [andb].
  destruct (_ && _); reflexivity.
Qed.

(** X22: when the part of the first output line after the browsers
    directory starts with a slash, the file the handler looks for, and
    caches when it is an executable file, is that part read from the root of
    the filesystem: the browsers directory is dropped from the path. *)
Theorem record_installed_drops_directory h nm proc w line0 rest d suffix :
  output_lines h (stdout proc) = line0 :: rest ->
  Reference.browsers_dir_on h (fs w) = Ok d ->
  last_item (split (str_of d) line0) = SLASH :: suffix ->
  exists w',
    record_installed h nm proc w = (Ok tt, w')
    /\ QIsfile (PathOf (SLASH :: suffix)) ∈ trace w'
    /\ browser_abspaths w' =
       if fs_isfile (fs w) (PathOf (SLASH :: suffix))
          && fs_access_x (fs w) (PathOf (SLASH :: suffix))
       then <[nm := PathOf (SLASH :: suffix)]> (browser_abspaths w)
       else browser_abspaths w.
Proof.
  intros Hlines Hd Hsuffix.
  destruct (record_installed h nm proc w) as [r w'] eqn:Hrun.
  destruct (record_installed_inv h nm proc w r w' Hrun)
    as [(Hnil & _)|(l0 & rs & Hl & [(e & He & _)|(d0 & Hd0 & -> & _ & Htr & Hc)])];
    [congruence|congruence|].
  assert (l0 = line0) as -> by congruence.
  assert (d0 = d) as -> by congruence.
  assert (Reference.referenced_path d line0 = PathOf (SLASH :: suffix)) as Hp.
  { unfold Reference.referenced_path. rewrite Hsuffix. apply anchored_replaces. }
  rewrite Hp in Htr, Hc. exists w'. auto.
Qed.

Lemma record_installed_drops_directory_witness :
  exists w',
    record_installed Scenario.linux (lit "chrome") Scenario.installed_chromium
      (Scenario.fresh Scenario.empty_fs) = (Ok tt, w')
    /\ browser_abspaths w' !! lit "chrome"
       = Some (PathOf (lit "/chromium-1200/chrome-linux/chrome")).
Proof.
  destruct (record_installed_drops_directory Scenario.linux (lit "chrome")
              Scenario.installed_chromium (Scenario.fresh Scenario.empty_fs)
              (stdout Scenario.installed_chromium) [] (PathOf Scenario.linux_cache)
              (lit "chromium-1200/chrome-linux/chrome"))
    as (w' & Hrun & _ & Hc).
  - vm_compute. reflexivity.
  - vm_compute. reflexivity.
  - vm_compute. reflexivity.
  - exists w'. split; [exact Hrun|]. rewrite Hc. vm_compute. reflexivity.
Defined.

End PlaywrightMore.
